(** * Validated order and customer records (models.py)

    [models.py] declares seventeen pydantic record classes and two
    string-backed enumerations.  The file holds no function of its own:
    what it "does" is what pydantic's validation engine does with those
    declarations.  The development therefore has two layers.

    - [Pydantic]: the engine of pydantic 2 under the configuration the
      source leaves at its defaults: lax mode, extra keys ignored, lookup
      by alias, defaults not validated, every field and every list
      element validated and all line errors collected, bounds of a number
      checked [le] before [ge] and failing on NaN.
    - [Models]: the declarations of [models.py], field by field, in the
      order and with the constraints written there.

    Raw input is a Python object built from [None], [bool], [int],
    [float], [str], [datetime], [date], [list] and [dict] with string
    keys; bytes, decimals, tuples, sets and record instances passed as
    input are left out.  A member of a [str]-backed enumeration is a
    string and is not told apart from the plain string equal to it.
    A [str] is held as the engine holds it, by its UTF-8 encoding, one
    cell of a [string] per byte; [len] counts its code points.  A [str]
    with a lone surrogate has no such encoding and is left out.
    Floats are the numbers of IEEE 754 binary64.  A line error carries
    its location and its type; the message, the offending input and the
    context are left out. *)

From Stdlib Require Import List String Ascii ZArith Bool Lia.
From Stdlib Require Import Floats.SpecFloat.
Import ListNotations.

Set Warnings "-register-all".
Set Implicit Arguments.

(** ** Python values *)

Module Py.

(** [datetime.date] and [datetime.datetime]; [tzinfo] is the offset from
    UTC in seconds for an aware value and [None] for a naive one. *)
Record date := Date { year : Z; month : Z; day : Z }.
Record time := Time { hour : Z; minute : Z; second : Z; microsecond : Z }.
Record datetime := Datetime { on : date; at_ : time; tzinfo : option Z }.

Definition midnight : time := Time 0 0 0 0.

Definition time_eqb (a b : time) : bool :=
  (hour a =? hour b)%Z && (minute a =? minute b)%Z &&
  (second a =? second b)%Z && (microsecond a =? microsecond b)%Z.

(** A Python [float] is an IEEE 754 binary64 number. *)
Definition float := spec_float.
Definition prec : Z := 53.
Definition emax : Z := 1024.

(** [float(z)]: round to nearest, ties to even; an integer too large for
    a double raises [OverflowError]. *)
Definition float_of_int (z : Z) : option float :=
  match binary_normalize prec emax z 0 false with
  | S754_infinity _ => None
  | f => Some f
  end.

Definition float_of_bool (b : bool) : float :=
  binary_normalize prec emax (if b then 1 else 0) 0 false.

(** The order between a float and an integer, read off the exact value
    (-1)^s * m * 2^e of a finite float; NaN is in no order with
    anything. *)
Definition float_leb_int (f : float) (b : Z) : bool :=
  match f with
  | S754_zero _ => (0 <=? b)%Z
  | S754_infinity s => s
  | S754_nan => false
  | S754_finite s m e =>
      let v := if s then Z.neg m else Z.pos m in
      if (0 <=? e)%Z then (v * 2 ^ e <=? b)%Z else (v <=? b * 2 ^ (- e))%Z
  end.

Definition int_leb_float (b : Z) (f : float) : bool :=
  match f with
  | S754_zero _ => (b <=? 0)%Z
  | S754_infinity s => negb s
  | S754_nan => false
  | S754_finite s m e =>
      let v := if s then Z.neg m else Z.pos m in
      if (0 <=? e)%Z then (b <=? v * 2 ^ e)%Z else (b * 2 ^ (- e) <=? v)%Z
  end.

(** A [str] is held by its UTF-8 encoding.  A code point is one leading
    byte followed by continuation bytes, the bytes 10xxxxxx, so [len(s)]
    is the number of bytes that are no continuation bytes. *)
Definition is_continuation (a : ascii) : bool :=
  match a with Ascii _ _ _ _ _ _ b6 b7 => b7 && negb b6 end.

Fixpoint len (s : string) : nat :=
  match s with
  | EmptyString => 0
  | String a s' => if is_continuation a then len s' else S (len s')
  end.

(** [''.join(map(chr, cs)).encode()]: the UTF-8 encoding of a sequence of
    code points, in one to four bytes each. *)
Definition continuation (c i : N) : ascii :=
  Ascii (N.testbit c i) (N.testbit c (i + 1)) (N.testbit c (i + 2))
        (N.testbit c (i + 3)) (N.testbit c (i + 4)) (N.testbit c (i + 5))
        false true.

Definition utf8_char (c : N) : string :=
  if (c <? 128)%N then
    String (Ascii (N.testbit c 0) (N.testbit c 1) (N.testbit c 2) (N.testbit c 3)
                  (N.testbit c 4) (N.testbit c 5) (N.testbit c 6) false)
           EmptyString
  else if (c <? 2048)%N then
    String (Ascii (N.testbit c 6) (N.testbit c 7) (N.testbit c 8) (N.testbit c 9)
                  (N.testbit c 10) false true true)
      (String (continuation c 0) EmptyString)
  else if (c <? 65536)%N then
    String (Ascii (N.testbit c 12) (N.testbit c 13) (N.testbit c 14) (N.testbit c 15)
                  false true true true)
      (String (continuation c 6) (String (continuation c 0) EmptyString))
  else
    String (Ascii (N.testbit c 18) (N.testbit c 19) (N.testbit c 20) false
                  true true true true)
      (String (continuation c 12)
         (String (continuation c 6) (String (continuation c 0) EmptyString))).

Fixpoint utf8 (cs : list N) : string :=
  match cs with
  | [] => EmptyString
  | c :: cs' => String.append (utf8_char c) (utf8 cs')
  end.

(** Python integers are unbounded; the engine takes some of them only
    when they fit a signed 64-bit integer. *)
Definition fits_i64 (z : Z) : bool := (- 2 ^ 63 <=? z)%Z && (z <? 2 ^ 63)%Z.

(** The raw objects a record can be built from. *)
Inductive raw :=
| RNone
| RBool (b : bool)
| RInt (z : Z)
| RFloat (f : float)
| RStr (s : string)
| RDatetime (d : datetime)
| RDate (d : date)
| RList (l : list raw)
| RDict (d : list (string * raw)).

(** [d.get(k)]: a dict is a list of bindings, the first binding of a key
    is the one that counts. *)
Fixpoint dict_get {A : Type} (k : string) (d : list (string * A)) : option A :=
  match d with
  | [] => None
  | (k', v) :: d' => if String.eqb k k' then Some v else dict_get k d'
  end.

(** [{k: v for k, v in d.items() if k not in ks}] *)
Definition dict_without {A : Type} (ks : list string) (d : list (string * A))
  : list (string * A) :=
  filter (fun kv => negb (existsb (String.eqb (fst kv)) ks)) d.

(** [list(enumerate(l))] *)
Definition enumerate {A : Type} (l : list A) : list (nat * A) :=
  combine (seq 0 (List.length l)) l.

End Py.
Import Py.

(** ** The validation engine *)

Module Pydantic.

(** *** Line errors *)

(** The [type] of a line error, with pydantic's names. *)
Inductive error_type :=
| missing
| string_type | string_too_short | string_too_long
| int_type | int_parsing | int_from_float | int_parsing_size | finite_number
| float_type | float_parsing
| greater_than_equal | less_than_equal
| enum
| datetime_type | datetime_parsing | datetime_from_date_parsing
| date_type | date_parsing | date_from_datetime_parsing | date_from_datetime_inexact
| list_type
| model_type.

(** The failure taxonomy of the specification, and where each error type
    falls in it. *)
Inductive failure :=
| MissingField | TypeMismatch | ConstraintViolation
| InvalidEnumValue | InvalidTemporal.

Definition failure_of (t : error_type) : failure :=
  match t with
  | missing => MissingField
  | string_too_short | string_too_long
  | greater_than_equal | less_than_equal => ConstraintViolation
  | enum => InvalidEnumValue
  | datetime_parsing | datetime_from_date_parsing
  | date_parsing | date_from_datetime_parsing
  | date_from_datetime_inexact => InvalidTemporal
  | _ => TypeMismatch
  end.

(** One step of a location: a field (named by its lookup key) or an index
    in a list. *)
Inductive loc_item := LField (key : string) | LIndex (i : nat).

Record line_error := LineError { loc : list loc_item; kind : error_type }.

(** A failure inside a nested record or a list element is reported by the
    enclosing validator with its own step put in front of the location. *)
Definition with_outer_location (l : loc_item) (e : line_error) : line_error :=
  {| loc := l :: loc e; kind := kind e |}.

(** Validation gives a value or raises [ValidationError] with the line
    errors collected. *)
Inductive result (A : Type) :=
| Ok (a : A)
| ValidationError (errors : list line_error).
Arguments Ok {A} a.
Arguments ValidationError {A} errors.

Definition is_ok {A : Type} (r : result A) : bool :=
  match r with Ok _ => true | ValidationError _ => false end.

Definition errors_of {A : Type} (r : result A) : list line_error :=
  match r with Ok _ => [] | ValidationError es => es end.

Definition fail {A : Type} (t : error_type) : result A :=
  ValidationError [LineError [] t].

(** *** Annotations *)

(** An enumeration class: its name and its members (name, value). *)
Record member := Member { mname : string; mvalue : string }.
Record enum_class := EnumClass { ename : string; members : list member }.

(** [Field(min_length=..., max_length=...)] on a string and
    [Field(ge=..., le=...)] on a number. *)
Record str_constraints := StrField { min_length : option nat; max_length : option nat }.
Record num_constraints := NumField { ge : option Z; le : option Z }.

(** What a field falls back on when its key is absent. *)
Inductive default_spec :=
| required
| default_None            (* Field(default=None) *)
| default_factory_list.   (* Field(default_factory=list) *)

Record field_info (T : Type) := Field {
  fname : string;
  fty : T;
  falias : option string;
  fdefault : default_spec
}.

(** The annotations the source uses. *)
Inductive ty :=
| t_str (c : str_constraints)
| t_int (c : num_constraints)
| t_float (c : num_constraints)
| t_datetime
| t_date
| t_enum (e : enum_class)
| t_optional (t : ty)               (* T | None *)
| t_list (t : ty)                   (* List[T] *)
| t_model (cls : string) (fields : list (field_info ty)).  (* a BaseModel subclass *)

(** The key a field is looked up and serialized under. *)
Definition lookup_key {T : Type} (f : field_info T) : string :=
  match falias f with Some a => a | None => fname f end.

(** *** Validated values *)

Inductive value :=
| VNone
| VInt (z : Z)
| VFloat (f : float)
| VStr (s : string)
| VDatetime (d : datetime)
| VDate (d : date)
| VEnum (cls : string) (m : member)
| VList (l : list value)
| VModel (cls : string) (attrs : list (string * value)).

Definition default_value (d : default_spec) : option value :=
  match d with
  | required => None
  | default_None => Some VNone
  | default_factory_list => Some (VList [])
  end.

(** *** Lax-mode conversions left open

    In lax mode strings are parsed into numbers, dates and datetimes, and
    numbers are read as Unix timestamps.  The grammar of those parsers is
    not part of the source; every statement below holds for any of them. *)
Class Lax := {
  str_as_int : string -> option Z;
  str_as_float : string -> option float;
  str_as_datetime : string -> option datetime;
  str_as_date : string -> option date;
  int_as_datetime : Z -> option datetime;
  float_as_datetime : float -> option datetime
}.

Section Engine.
Context {lax : Lax}.

(** *** Scalars *)

(** The length bounds of a string count its code points. *)
Definition check_length (c : str_constraints) (s : string) : result value :=
  if match min_length c with Some n => len s <? n | None => false end
  then fail string_too_short
  else if match max_length c with Some n => n <? len s | None => false end
  then fail string_too_long
  else Ok (VStr s).

Definition validate_str (c : str_constraints) (r : raw) : result value :=
  match r with
  | RStr s => check_length c s
  | _ => fail string_type
  end.

(** Bounds are checked [le] first, then [ge]; the first one that fails is
    the one reported. *)
Definition check_int (c : num_constraints) (z : Z) : result value :=
  if match le c with Some b => negb (z <=? b)%Z | None => false end
  then fail less_than_equal
  else if match ge c with Some b => negb (b <=? z)%Z | None => false end
  then fail greater_than_equal
  else Ok (VInt z).

(** A float is read as an integer when it is finite, has no fractional
    part and lies strictly between -2^63 and 2^63, the two ends of the
    signed 64-bit integers as floats. *)
Definition within_i64_floats (z : Z) : result Z :=
  if (- 2 ^ 63 <? z)%Z && (z <? 2 ^ 63)%Z then Ok z else fail int_parsing_size.

Definition float_as_int (f : float) : result Z :=
  match f with
  | S754_zero _ => Ok 0%Z
  | S754_infinity _ | S754_nan => fail finite_number
  | S754_finite s m e =>
      let sign := fun z : Z => if s then (- z)%Z else z in
      if (0 <=? e)%Z then within_i64_floats (sign (Z.pos m * 2 ^ e)%Z)
      else if (Z.pos m mod 2 ^ (- e) =? 0)%Z
      then within_i64_floats (sign (Z.pos m / 2 ^ (- e))%Z)
      else fail int_from_float
  end.

(** What an [int] field reads its input as, in lax mode. *)
Definition int_of_raw (r : raw) : result Z :=
  match r with
  | RInt z => Ok z
  | RBool b => Ok (if b then 1 else 0)%Z
  | RStr s =>
      match str_as_int s with
      | Some z => Ok z
      | None => fail int_parsing
      end
  | RFloat f => float_as_int f
  | _ => fail int_type
  end.

Definition validate_int (c : num_constraints) (r : raw) : result value :=
  match int_of_raw r with
  | Ok z => check_int c z
  | ValidationError es => ValidationError es
  end.

(** The bound of a float field is written as an integer in the source and
    compared as a float.  A comparison with NaN does not hold. *)
Definition float_bound (b : Z) : float := binary_normalize prec emax b 0 false.

Definition check_float (c : num_constraints) (f : float) : result value :=
  if match le c with Some b => negb (SFleb f (float_bound b)) | None => false end
  then fail less_than_equal
  else if match ge c with Some b => negb (SFleb (float_bound b) f) | None => false end
  then fail greater_than_equal
  else Ok (VFloat f).

(** What a [float] field reads its input as, in lax mode. *)
Definition float_of_raw (r : raw) : result float :=
  match r with
  | RFloat f => Ok f
  | RStr s =>
      match str_as_float s with
      | Some f => Ok f
      | None => fail float_parsing
      end
  | RInt z =>
      match float_of_int z with
      | Some f => Ok f
      | None => fail float_type
      end
  | RBool b => Ok (float_of_bool b)
  | _ => fail float_type
  end.

Definition validate_float (c : num_constraints) (r : raw) : result value :=
  match float_of_raw r with
  | Ok f => check_float c f
  | ValidationError es => ValidationError es
  end.

Definition parsed {A : Type} (t : error_type) (o : option A) : result A :=
  match o with Some a => Ok a | None => fail t end.

(** What the input reads as a datetime, in lax mode: a string by the
    parser; an integer of 64 bits, a larger integer as a float, or a
    float as a Unix timestamp; a date as its midnight, naive.  A [bool]
    is no timestamp. *)
Definition datetime_of_raw (r : raw) : result datetime :=
  match r with
  | RDatetime d => Ok d
  | RStr s => parsed datetime_parsing (str_as_datetime s)
  | RInt z =>
      if fits_i64 z then parsed datetime_parsing (int_as_datetime z)
      else match float_of_int z with
           | Some f => parsed datetime_parsing (float_as_datetime f)
           | None => fail datetime_type
           end
  | RFloat f => parsed datetime_parsing (float_as_datetime f)
  | RDate d => Ok (Datetime d midnight None)
  | _ => fail datetime_type
  end.

(** What the input reads as a date, in lax mode: a date, or a string by
    the parser.  A datetime is no date here. *)
Definition date_of_raw (r : raw) : result date :=
  match r with
  | RDate d => Ok d
  | RStr s => parsed date_parsing (str_as_date s)
  | _ => fail date_type
  end.

(** The line errors [es] with the types that [f] renames renamed, when
    there is one. *)
Definition retyped (f : error_type -> option error_type) (es : list line_error)
  : option (list line_error) :=
  if existsb (fun e => match f (kind e) with Some _ => true | None => false end) es
  then Some (map (fun e => match f (kind e) with
                           | Some t => LineError (loc e) t
                           | None => e
                           end) es)
  else None.

(** An input that does not read as a datetime is tried as a date and
    taken at midnight, UTC.  When it fails to parse as a date too, that
    is the error reported, under the type [datetime_from_date_parsing];
    any other input keeps its first error. *)
Definition datetime_from_date (r : raw) : result (option datetime) :=
  match date_of_raw r with
  | Ok d => Ok (Some (Datetime d midnight (Some 0%Z)))
  | ValidationError es =>
      match retyped (fun t => match t with
                              | date_parsing => Some datetime_from_date_parsing
                              | _ => None
                              end) es with
      | Some es' => ValidationError es'
      | None => Ok None
      end
  end.

Definition validate_datetime (r : raw) : result value :=
  match datetime_of_raw r with
  | Ok d => Ok (VDatetime d)
  | ValidationError es =>
      match datetime_from_date r with
      | Ok (Some d) => Ok (VDatetime d)
      | Ok None => ValidationError es
      | ValidationError es' => ValidationError es'
      end
  end.

(** An input that does not read as a date is tried as a datetime and
    taken when its time of day is midnight; otherwise it is reported as
    [date_from_datetime_inexact].  When it fails to parse as a datetime
    too, that is the error reported, under the type
    [date_from_datetime_parsing]; any other input keeps its first
    error. *)
Definition date_from_datetime (r : raw) : result (option date) :=
  match datetime_of_raw r with
  | Ok d =>
      if time_eqb (at_ d) midnight then Ok (Some (on d))
      else fail date_from_datetime_inexact
  | ValidationError es =>
      match retyped (fun t => match t with
                              | datetime_parsing => Some date_from_datetime_parsing
                              | _ => None
                              end) es with
      | Some es' => ValidationError es'
      | None => Ok None
      end
  end.

Definition validate_date (r : raw) : result value :=
  match date_of_raw r with
  | Ok d => Ok (VDate d)
  | ValidationError es =>
      match date_from_datetime r with
      | Ok (Some d) => Ok (VDate d)
      | Ok None => ValidationError es
      | ValidationError es' => ValidationError es'
      end
  end.

(** A member is found by its value, compared character by character. *)
Definition validate_enum (e : enum_class) (r : raw) : result value :=
  match r with
  | RStr s =>
      match find (fun m => String.eqb (mvalue m) s) (members e) with
      | Some m => Ok (VEnum (ename e) m)
      | None => fail enum
      end
  | _ => fail enum
  end.

(** *** Collecting line errors *)

(** Every outcome is looked at; the values of the successes and the line
    errors of the failures, each under its outer location, are kept in
    order. *)
Fixpoint gather {A : Type} (outcomes : list (loc_item * result A))
  : list A * list line_error :=
  match outcomes with
  | [] => ([], [])
  | (l, o) :: rest =>
      let (vs, es) := gather rest in
      match o with
      | Ok v => (v :: vs, es)
      | ValidationError e => (vs, map (with_outer_location l) e ++ es)
      end
  end.

Definition finish {A : Type} (build : list A -> value) (g : list A * list line_error)
  : result value :=
  match snd g with
  | [] => Ok (build (fst g))
  | es => ValidationError es
  end.

(** *** Lists and records *)

Definition validate_items (v : raw -> result value) (l : list raw) : result value :=
  finish VList (gather (map (fun ir => (LIndex (fst ir), v (snd ir))) (enumerate l))).

(** One field of a record: the raw value under the field's key is
    validated; an absent key gives the default, unvalidated, or a
    [missing] error when there is none. *)
Definition validate_field (v : raw -> result value) (f : field_info ty)
  (d : list (string * raw)) : result (string * value) :=
  match dict_get (lookup_key f) d with
  | Some r =>
      match v r with
      | Ok x => Ok (fname f, x)
      | ValidationError es => ValidationError es
      end
  | None =>
      match default_value (fdefault f) with
      | Some x => Ok (fname f, x)
      | None => fail missing
      end
  end.

Fixpoint validate (t : ty) (r : raw) {struct t} : result value :=
  match t with
  | t_str c => validate_str c r
  | t_int c => validate_int c r
  | t_float c => validate_float c r
  | t_datetime => validate_datetime r
  | t_date => validate_date r
  | t_enum e => validate_enum e r
  | t_optional t' =>
      match r with
      | RNone => Ok VNone
      | _ => validate t' r
      end
  | t_list t' =>
      match r with
      | RList l => validate_items (validate t') l
      | _ => fail list_type
      end
  | t_model cls fields =>
      match r with
      | RDict d =>
          finish (VModel cls)
            (gather (map (fun f => (LField (lookup_key f),
                                    validate_field (validate (fty f)) f d))
                         fields))
      | _ => fail model_type
      end
  end.

(** The outcome of one declared field on a raw mapping. *)
Definition field_outcome (d : list (string * raw)) (f : field_info ty)
  : loc_item * result (string * value) :=
  (LField (lookup_key f), validate_field (validate (fty f)) f d).

(** A field is in violation on [d] when its own outcome is a failure. *)
Definition violated (d : list (string * raw)) (f : field_info ty) : bool :=
  negb (is_ok (snd (field_outcome d f))).

(** The places where a raw object fails an annotation, counted without
    running a record or a list validator: a scalar that is not taken, an
    object that is not a list or a dict where one is due, a required key
    that is absent; the places inside the elements of a list and the
    fields of a record add up. *)
Fixpoint violations (t : ty) (r : raw) {struct t} : nat :=
  match t with
  | t_str c => if is_ok (validate_str c r) then 0 else 1
  | t_int c => if is_ok (validate_int c r) then 0 else 1
  | t_float c => if is_ok (validate_float c r) then 0 else 1
  | t_datetime => if is_ok (validate_datetime r) then 0 else 1
  | t_date => if is_ok (validate_date r) then 0 else 1
  | t_enum e => if is_ok (validate_enum e r) then 0 else 1
  | t_optional t' =>
      match r with
      | RNone => 0
      | _ => violations t' r
      end
  | t_list t' =>
      match r with
      | RList l => list_sum (map (violations t') l)
      | _ => 1
      end
  | t_model _ fields =>
      match r with
      | RDict d =>
          list_sum (map (fun f =>
                      match dict_get (lookup_key f) d with
                      | Some r' => violations (fty f) r'
                      | None =>
                          match default_value (fdefault f) with
                          | Some _ => 0
                          | None => 1
                          end
                      end) fields)
      | _ => 1
      end
  end.

(** The value a field takes on [d], when it takes one. *)
Definition field_value (d : list (string * raw)) (f : field_info ty) : option value :=
  match snd (field_outcome d f) with
  | Ok nv => Some (snd nv)
  | ValidationError _ => None
  end.

End Engine.

(** What [gather] keeps, told apart: the values and the line errors. *)
Definition oks {A : Type} (outcomes : list (loc_item * result A)) : list A :=
  flat_map (fun o => match snd o with Ok v => [v] | ValidationError _ => [] end)
           outcomes.

Definition errs {A : Type} (outcomes : list (loc_item * result A)) : list line_error :=
  flat_map (fun o => match snd o with
                     | Ok _ => []
                     | ValidationError e => map (with_outer_location (fst o)) e
                     end)
           outcomes.

(** The outcomes of the elements of a list, numbered from [i]. *)
Definition item_outcomes (v : raw -> result value) (i : nat) (l : list raw)
  : list (loc_item * result value) :=
  map (fun ir => (LIndex (fst ir), v (snd ir))) (combine (seq i (List.length l)) l).

(** *** Well-formed declarations

    Within one class no two fields share a name or a lookup key, and a
    default inhabits its annotation: [None] goes with [T | None] and the
    [list] factory with [List[T]].  Python rules out the first for names;
    the rest is checked on the classes of the source below. *)
Fixpoint distinct (l : list string) : bool :=
  match l with
  | [] => true
  | x :: l' => negb (existsb (String.eqb x) l') && distinct l'
  end.

Definition default_fits (f : field_info ty) : bool :=
  match fdefault f, fty f with
  | required, _ => true
  | default_None, t_optional _ => true
  | default_factory_list, t_list _ => true
  | _, _ => false
  end.

Fixpoint well_formed (t : ty) {struct t} : bool :=
  match t with
  | t_optional t' => well_formed t'
  | t_list t' => well_formed t'
  | t_model _ fields =>
      distinct (map (@fname ty) fields) &&
      distinct (map (@lookup_key ty) fields) &&
      forallb (fun f => default_fits f && well_formed (fty f)) fields
  | _ => true
  end.

(** No two members of an enumeration share a value: Python would make
    the second an alias of the first. *)
Fixpoint unambiguous (t : ty) {struct t} : bool :=
  match t with
  | t_enum e => distinct (map mvalue (members e))
  | t_optional t' => unambiguous t'
  | t_list t' => unambiguous t'
  | t_model _ fields => forallb (fun f => unambiguous (fty f)) fields
  | _ => true
  end.

Definition is_list (t : ty) : bool :=
  match t with t_list _ => true | _ => false end.

Definition named (n : string) (f : field_info ty) : bool := String.eqb (fname f) n.

(** *** Values that inhabit an annotation

    What the declarations promise of a value, written without the
    validators: a string within its length bounds, a number within its
    range, a member of the enumeration, a list of inhabitants, a record
    of the class with one attribute per declared field, in order. *)
Definition within_length (c : str_constraints) (s : string) : bool :=
  match min_length c with Some n => n <=? len s | None => true end &&
  match max_length c with Some n => len s <=? n | None => true end.

Definition within_int (c : num_constraints) (z : Z) : bool :=
  match ge c with Some b => (b <=? z)%Z | None => true end &&
  match le c with Some b => (z <=? b)%Z | None => true end.

Definition within_float (c : num_constraints) (f : float) : bool :=
  match ge c with
  | Some b => SFleb (binary_normalize prec emax b 0 false) f
  | None => true
  end &&
  match le c with
  | Some b => SFleb f (binary_normalize prec emax b 0 false)
  | None => true
  end.

Definition member_eqb (a b : member) : bool :=
  String.eqb (mname a) (mname b) && String.eqb (mvalue a) (mvalue b).

Fixpoint same_names (a b : list string) : bool :=
  match a, b with
  | [], [] => true
  | x :: a', y :: b' => String.eqb x y && same_names a' b'
  | _, _ => false
  end.

Fixpoint conforms (t : ty) (v : value) {struct t} : bool :=
  match t with
  | t_str c => match v with VStr s => within_length c s | _ => false end
  | t_int c => match v with VInt z => within_int c z | _ => false end
  | t_float c => match v with VFloat f => within_float c f | _ => false end
  | t_datetime => match v with VDatetime _ => true | _ => false end
  | t_date => match v with VDate _ => true | _ => false end
  | t_enum e =>
      match v with
      | VEnum cls m => String.eqb cls (ename e) && existsb (member_eqb m) (members e)
      | _ => false
      end
  | t_optional t' =>
      match v with
      | VNone => true
      | _ => conforms t' v
      end
  | t_list t' =>
      match v with
      | VList l => forallb (conforms t') l
      | _ => false
      end
  | t_model cls fields =>
      match v with
      | VModel cls' attrs =>
          String.eqb cls' cls &&
          same_names (map fst attrs) (map (@fname ty) fields) &&
          forallb (fun f =>
                     match dict_get (fname f) attrs with
                     | Some x => conforms (fty f) x
                     | None => false
                     end) fields
      | _ => false
      end
  end.

Definition is_required (f : field_info ty) : bool :=
  match fdefault f with required => true | _ => false end.

(** The raw objects that are mappings, and those that are lists. *)
Definition is_dict (r : raw) : bool :=
  match r with RDict _ => true | _ => false end.

Definition is_list_object (r : raw) : bool :=
  match r with RList _ => true | _ => false end.

(** *** Serialization

    [model_dump(by_alias=True)]: a record becomes a dict keyed by the
    fields' lookup keys, in declaration order; a list is dumped element
    by element; an enumeration member is its string; every other value
    is itself. *)
Definition dump_scalar (v : value) : raw :=
  match v with
  | VNone => RNone
  | VInt z => RInt z
  | VFloat f => RFloat f
  | VStr s => RStr s
  | VDatetime d => RDatetime d
  | VDate d => RDate d
  | VEnum _ m => RStr (mvalue m)
  | VList _ => RList []
  | VModel _ _ => RDict []
  end.

Fixpoint model_dump (t : ty) (v : value) {struct t} : raw :=
  match t with
  | t_optional t' =>
      match v with
      | VNone => RNone
      | _ => model_dump t' v
      end
  | t_list t' =>
      match v with
      | VList l => RList (map (model_dump t') l)
      | _ => dump_scalar v
      end
  | t_model _ fields =>
      match v with
      | VModel _ attrs =>
          RDict (flat_map (fun f =>
                   match dict_get (fname f) attrs with
                   | Some x => [(lookup_key f, model_dump (fty f) x)]
                   | None => []
                   end) fields)
      | _ => dump_scalar v
      end
  | _ => dump_scalar v
  end.

(** The entry point of a record class applied to a raw mapping. *)
Definition model_validate {lax : Lax} (model : ty) (d : list (string * raw))
  : result value :=
  validate model (RDict d).

(** [getattr(x, name)] on a validated record. *)
Definition getattr (x : value) (name : string) : option value :=
  match x with
  | VModel _ attrs => dict_get name attrs
  | _ => None
  end.

Definition fields_of (t : ty) : list (field_info ty) :=
  match t with
  | t_model _ fields => fields
  | _ => []
  end.

End Pydantic.
Import Pydantic.

(** ** The declarations of models.py *)

Module Models.
Local Open Scope string_scope.

(** Shorthands for the annotations that occur: a plain [str], a number
    with [ge] and possibly [le], a required field with or without an
    explicit alias. *)
Definition str : ty := t_str (StrField None None).
Definition str_min (n : nat) : ty := t_str (StrField (Some n) None).
Definition str_between (n k : nat) : ty := t_str (StrField (Some n) (Some k)).
Definition int_ge (a : Z) : ty := t_int (NumField (Some a) None).
Definition int_between (a b : Z) : ty := t_int (NumField (Some a) (Some b)).
Definition float_ge (a : Z) : ty := t_float (NumField (Some a) None).
Definition float_between (a b : Z) : ty := t_float (NumField (Some a) (Some b)).

Definition plain (name : string) (t : ty) : field_info ty :=
  Field name t None required.
Definition aliased (name : string) (t : ty) (alias : string) : field_info ty :=
  Field name t (Some alias) required.

Definition OrderModel : ty :=
  t_model "OrderModel" [
    plain "orderId" (str_min 5);
    plain "customerId" (str_min 5);
    plain "customerName" (str_min 5)
  ].

Definition OrderStatus : enum_class :=
  EnumClass "OrderStatus" [
    Member "delivered" "delivered";
    Member "cancelled" "cancelled";
    Member "pending" "pending";
    Member "preparing" "preparing";
    Member "out_for_delivery" "out_for_delivery"
  ].

Definition Restaurant : ty :=
  t_model "Restaurant" [
    Field "restaurantId" (t_optional str) (Some "restaurantId") default_None;
    plain "name" str;
    plain "location" str;
    Field "cuisine" (t_optional str) None default_None;
    plain "rating" (float_between 0 5);
    plain "deliveryTime" str
  ].

Definition Item : ty :=
  t_model "Item" [
    plain "name" str;
    plain "quantity" (int_ge 1);
    plain "price" (float_ge 0);
    Field "customizations" (t_list str) None default_factory_list
  ].

Definition Pricing : ty :=
  t_model "Pricing" [
    plain "itemTotal" (float_ge 0);
    plain "deliveryFee" (float_ge 0);
    plain "platformFee" (float_ge 0);
    plain "gst" (float_ge 0);
    plain "discount" (float_ge 0);
    plain "totalAmount" (float_ge 0)
  ].

Definition Payment : ty :=
  t_model "Payment" [
    plain "method" str;
    aliased "transactionId" str "transactionId";
    plain "status" str
  ].

Definition DeliveryAddress : ty :=
  t_model "DeliveryAddress" [
    plain "label" str;
    plain "address" str;
    plain "city" str;
    plain "pincode" (str_between 6 6)
  ].

Definition DeliveryPartner : ty :=
  t_model "DeliveryPartner" [
    plain "name" str;
    plain "rating" (float_between 0 5);
    plain "phone" str
  ].

Definition Timeline : ty :=
  t_model "Timeline" [
    aliased "orderPlaced" t_datetime "orderPlaced";
    aliased "restaurantAccepted" t_datetime "restaurantAccepted";
    aliased "foodReady" t_datetime "foodReady";
    aliased "outForDelivery" t_datetime "outForDelivery";
    aliased "delivered" t_datetime "delivered"
  ].

Definition Ratings : ty :=
  t_model "Ratings" [
    plain "food" (int_between 1 5);
    plain "delivery" (int_between 1 5);
    plain "review" str
  ].

Definition Order : ty :=
  t_model "Order" [
    aliased "orderId" str "orderId";
    aliased "customerId" str "customerId";
    aliased "customerName" str "customerName";
    aliased "orderDate" t_datetime "orderDate";
    plain "status" (t_enum OrderStatus);
    plain "restaurant" Restaurant;
    plain "items" (t_list Item);
    plain "pricing" Pricing;
    plain "payment" Payment;
    plain "deliveryAddress" DeliveryAddress;
    plain "deliveryPartner" DeliveryPartner;
    plain "timeline" Timeline;
    plain "ratings" Ratings
  ].

Definition SpiceLevel : enum_class :=
  EnumClass "SpiceLevel" [
    Member "Mild" "Mild";
    Member "Medium" "Medium";
    Member "Hot" "Hot"
  ].

Definition RecentOrder : ty :=
  t_model "RecentOrder" [
    aliased "orderId" str "orderId";
    aliased "orderDate" t_datetime "orderDate";
    plain "status" (t_enum OrderStatus);
    plain "restaurant" Restaurant;
    plain "items" (t_list Item);
    plain "pricing" Pricing;
    plain "payment" Payment;
    plain "deliveryAddress" DeliveryAddress;
    plain "deliveryPartner" DeliveryPartner;
    plain "timeline" Timeline;
    plain "ratings" Ratings
  ].

Definition Profile : ty :=
  t_model "Profile" [
    plain "name" str;
    plain "email" str;
    plain "phone" str;
    aliased "memberSince" t_date "memberSince"
  ].

Definition AccountStats : ty :=
  t_model "AccountStats" [
    plain "totalOrders" (int_ge 0);
    plain "lifetimeValue" (float_ge 0);
    plain "averageOrderValue" (float_ge 0);
    Field "favoriteRestaurants" (t_list str) None default_factory_list;
    Field "preferredCuisines" (t_list str) None default_factory_list;
    plain "savedAddresses" (int_ge 0)
  ].

Definition Preferences : ty :=
  t_model "Preferences" [
    Field "dietaryRestrictions" (t_list str) None default_factory_list;
    Field "favoriteItems" (t_list str) None default_factory_list;
    Field "avoidIngredients" (t_list str) None default_factory_list;
    plain "spiceLevel" (t_enum SpiceLevel)
  ].

Definition Coupon : ty :=
  t_model "Coupon" [
    plain "code" str;
    plain "description" str;
    aliased "validUntil" t_date "validUntil"
  ].

Definition LoyaltyRewards : ty :=
  t_model "LoyaltyRewards" [
    plain "currentPoints" (int_ge 0);
    plain "pointsToNextReward" (int_ge 0);
    Field "couponsAvailable" (t_list Coupon) None default_factory_list
  ].

Definition Customer : ty :=
  t_model "Customer" [
    aliased "customerId" str "customerId";
    plain "profile" Profile;
    plain "accountStats" AccountStats;
    Field "recentOrders" (t_list RecentOrder) None default_factory_list;
    plain "preferences" Preferences;
    plain "loyaltyRewards" LoyaltyRewards
  ].

(** Every record class of the file, in the order of declaration. *)
Definition record_types : list ty :=
  [ OrderModel; Restaurant; Item; Pricing; Payment; DeliveryAddress;
    DeliveryPartner; Timeline; Ratings; Order; RecentOrder; Profile;
    AccountStats; Preferences; Coupon; LoyaltyRewards; Customer ].

End Models.
Import Models.

(** ** Sample data *)

Module Samples.
Local Open Scope string_scope.

(** An engine that takes Python objects only: no string or timestamp is
    converted. *)
Definition objects_only : Lax := {|
  str_as_int := fun _ => None;
  str_as_float := fun _ => None;
  str_as_datetime := fun _ => None;
  str_as_date := fun _ => None;
  int_as_datetime := fun _ => None;
  float_as_datetime := fun _ => None
|}.

(** Doubles, written as mantissa and exponent. *)
Definition f_0 : float := S754_zero false.
Definition f_5 : float := S754_finite false 5629499534213120 (-50).
Definition f_4_5 : float := S754_finite false 5066549580791808 (-50).
Definition f_249_5 : float := S754_finite false 8778500836163584 (-45).
Definition f_minus_1 : float := S754_finite true 4503599627370496 (-52).
(** -0.0001 and 5.0001, the doubles nearest to them *)
Definition f_minus_0_0001 : float := S754_finite true 7378697629483821 (-66).
Definition f_5_0001 : float := S754_finite false 5629612124203804 (-50).

Definition at_time (h m : Z) : raw :=
  RDatetime (Datetime (Date 2024 3 15) (Time h m 0 0) None).

Definition restaurant : list (string * raw) :=
  [ ("restaurantId", RStr "REST42");
    ("name", RStr "Spice Route");
    ("location", RStr "Indiranagar");
    ("rating", RFloat f_4_5);
    ("deliveryTime", RStr "30-35 mins") ].

Definition biryani : list (string * raw) :=
  [ ("name", RStr "Biryani"); ("quantity", RInt 2); ("price", RFloat f_249_5) ].

Definition raita : list (string * raw) :=
  [ ("name", RStr "Raita"); ("quantity", RInt 1); ("price", RInt 40);
    ("customizations", RList [RStr "no onion"]) ].

Definition pricing : list (string * raw) :=
  [ ("itemTotal", RInt 539); ("deliveryFee", RInt 30); ("platformFee", RInt 5);
    ("gst", RInt 27); ("discount", RInt 0); ("totalAmount", RInt 601) ].

Definition payment : list (string * raw) :=
  [ ("method", RStr "UPI"); ("transactionId", RStr "TXN0001"); ("status", RStr "paid") ].

Definition address : list (string * raw) :=
  [ ("label", RStr "Home"); ("address", RStr "12 MG Road");
    ("city", RStr "Bengaluru"); ("pincode", RStr "560001") ].

Definition partner : list (string * raw) :=
  [ ("name", RStr "Ravi"); ("rating", RInt 5); ("phone", RStr "9999999999") ].

Definition timeline : list (string * raw) :=
  [ ("orderPlaced", at_time 19 0); ("restaurantAccepted", at_time 19 2);
    ("foodReady", at_time 19 20); ("outForDelivery", at_time 19 25);
    ("delivered", at_time 19 45) ].

Definition ratings : list (string * raw) :=
  [ ("food", RInt 5); ("delivery", RInt 4); ("review", RStr "Good") ].

Definition recent_order : list (string * raw) :=
  [ ("orderId", RStr "ORD1");
    ("orderDate", at_time 19 0);
    ("status", RStr "delivered");
    ("restaurant", RDict restaurant);
    ("items", RList [RDict biryani; RDict raita]);
    ("pricing", RDict pricing);
    ("payment", RDict payment);
    ("deliveryAddress", RDict address);
    ("deliveryPartner", RDict partner);
    ("timeline", RDict timeline);
    ("ratings", RDict ratings) ].

(** The identifier and the names are shorter than five characters. *)
Definition order : list (string * raw) :=
  ("customerId", RStr "C7") :: ("customerName", RStr "Asha") :: recent_order.

Definition order_without_items : list (string * raw) :=
  dict_without ["items"] order.

Definition customer : list (string * raw) :=
  [ ("customerId", RStr "C7");
    ("profile", RDict [ ("name", RStr "Asha"); ("email", RStr "asha@example.com");
                        ("phone", RStr "8888888888");
                        ("memberSince", RDate (Date 2021 6 1)) ]);
    ("accountStats", RDict [ ("totalOrders", RInt 12); ("lifetimeValue", RInt 6400);
                             ("averageOrderValue", RFloat f_249_5);
                             ("savedAddresses", RInt 2) ]);
    ("recentOrders", RList [RDict recent_order]);
    ("preferences", RDict [ ("spiceLevel", RStr "Medium") ]);
    ("loyaltyRewards", RDict [ ("currentPoints", RInt 120);
                               ("pointsToNextReward", RInt 80) ]) ].


(** An [Item] input with two fields out of range. *)
Definition free_nothing : list (string * raw) :=
  [ ("name", RStr "Nothing"); ("quantity", RInt 0); ("price", RInt (-1)) ].


Definition restaurant_rated (rating : raw) : list (string * raw) :=
  ("rating", rating) :: restaurant.

Definition partner_rated (rating : raw) : list (string * raw) :=
  ("rating", rating) :: partner.

Definition item_of (quantity : raw) : list (string * raw) :=
  ("quantity", quantity) :: biryani.

Definition ratings_with (food : raw) : list (string * raw) :=
  ("food", food) :: ratings.

Definition pricing_with (discount : raw) : list (string * raw) :=
  ("discount", discount) :: pricing.

Definition stats_with (orders : raw) : list (string * raw) :=
  [ ("totalOrders", orders); ("lifetimeValue", RInt 6400);
    ("averageOrderValue", RFloat f_249_5); ("savedAddresses", RInt 2) ].

Definition noon : time := Time 12 0 0 0.

Definition coupon_until (day : raw) : list (string * raw) :=
  [ ("code", RStr "FREE50"); ("description", RStr "Half off");
    ("validUntil", day) ].

(** An order whose two items are both priced below zero. *)
Definition order_of_losses : list (string * raw) :=
  ("items", RList [RDict (("price", RInt (-1)) :: biryani);
                   RDict (("price", RInt (-2)) :: raita)]) :: order.

Definition customer_with (orders : list (list (string * raw))) : list (string * raw) :=
  ("recentOrders", RList (map RDict orders)) :: customer.

(** A recent order from a restaurant rated [rating]. *)
Definition recent_order_from (rating : raw) : list (string * raw) :=
  ("restaurant", RDict (restaurant_rated rating)) :: recent_order.


(** 1e19, an integral double beyond the signed 64-bit integers. *)
Definition f_1e19 : float := S754_finite false 4882812500000000 11.

(** The doubles of the integers of the sample order. *)
Definition f_27 : float := S754_finite false 7599824371187712 (-48).
Definition f_30 : float := S754_finite false 8444249301319680 (-48).
Definition f_40 : float := S754_finite false 5629499534213120 (-47).
Definition f_539 : float := S754_finite false 4741094138970112 (-43).
Definition f_601 : float := S754_finite false 5286451906347008 (-43).

Definition moment (h m : Z) : datetime :=
  Datetime (Date 2024 3 15) (Time h m 0 0) None.

(** The instances the sample mappings stand for, written out. *)
Definition payment_record : value :=
  VModel "Payment"
    [ ("method", VStr "UPI"); ("transactionId", VStr "TXN0001");
      ("status", VStr "paid") ].

Definition timeline_record : value :=
  VModel "Timeline"
    [ ("orderPlaced", VDatetime (moment 19 0));
      ("restaurantAccepted", VDatetime (moment 19 2));
      ("foodReady", VDatetime (moment 19 20));
      ("outForDelivery", VDatetime (moment 19 25));
      ("delivered", VDatetime (moment 19 45)) ].

Definition order_record : value :=
  VModel "Order"
    [ ("orderId", VStr "ORD1");
      ("customerId", VStr "C7");
      ("customerName", VStr "Asha");
      ("orderDate", VDatetime (moment 19 0));
      ("status", VEnum "OrderStatus" (Member "delivered" "delivered"));
      ("restaurant",
       VModel "Restaurant"
         [ ("restaurantId", VStr "REST42"); ("name", VStr "Spice Route");
           ("location", VStr "Indiranagar"); ("cuisine", VNone);
           ("rating", VFloat f_4_5); ("deliveryTime", VStr "30-35 mins") ]);
      ("items",
       VList [ VModel "Item"
                 [ ("name", VStr "Biryani"); ("quantity", VInt 2);
                   ("price", VFloat f_249_5); ("customizations", VList []) ];
               VModel "Item"
                 [ ("name", VStr "Raita"); ("quantity", VInt 1);
                   ("price", VFloat f_40);
                   ("customizations", VList [VStr "no onion"]) ] ]);
      ("pricing",
       VModel "Pricing"
         [ ("itemTotal", VFloat f_539); ("deliveryFee", VFloat f_30);
           ("platformFee", VFloat f_5); ("gst", VFloat f_27);
           ("discount", VFloat f_0); ("totalAmount", VFloat f_601) ]);
      ("payment", payment_record);
      ("deliveryAddress",
       VModel "DeliveryAddress"
         [ ("label", VStr "Home"); ("address", VStr "12 MG Road");
           ("city", VStr "Bengaluru"); ("pincode", VStr "560001") ]);
      ("deliveryPartner",
       VModel "DeliveryPartner"
         [ ("name", VStr "Ravi"); ("rating", VFloat f_5);
           ("phone", VStr "9999999999") ]);
      ("timeline", timeline_record);
      ("ratings",
       VModel "Ratings"
         [ ("food", VInt 5); ("delivery", VInt 4); ("review", VStr "Good") ]) ].

End Samples.

(** ** Facts about the engine *)

Unset Implicit Arguments.

(** Case analysis over the members of a list written out. *)
Ltac each_member H :=
  simpl in H; repeat (destruct H as [<-|H]); try contradiction.

Section Facts.
Context {lax : Lax}.
Local Open Scope string_scope.
Local Open Scope list_scope.

(** *** Induction over annotations, through the fields of a record *)

Lemma ty_nested_ind (P : ty -> Prop) :
  (forall c, P (t_str c)) ->
  (forall c, P (t_int c)) ->
  (forall c, P (t_float c)) ->
  P t_datetime ->
  P t_date ->
  (forall e, P (t_enum e)) ->
  (forall t, P t -> P (t_optional t)) ->
  (forall t, P t -> P (t_list t)) ->
  (forall cls fields, Forall (fun f => P (fty f)) fields -> P (t_model cls fields)) ->
  forall t, P t.
Proof.
  intros Hs Hi Hf Hdt Hd He Ho Hl Hm.
  fix IH 1. intros [c|c|c| | |e|t|t|cls fields].
  - apply Hs.
  - apply Hi.
  - apply Hf.
  - apply Hdt.
  - apply Hd.
  - apply He.
  - apply Ho, IH.
  - apply Hl, IH.
  - apply Hm. induction fields as [|f fields IHf].
    + constructor.
    + constructor; [apply IH | exact IHf].
Qed.

(** *** Dictionaries *)

Lemma dict_get_cons_ne {A : Type} (k k' : string) (v : A) d :
  k <> k' -> dict_get k ((k', v) :: d) = dict_get k d.
Proof.
  intros Hne. simpl. destruct (String.eqb_spec k k'); [contradiction | reflexivity].
Qed.

Lemma dict_get_cons_eq {A : Type} (k : string) (v : A) d :
  dict_get k ((k, v) :: d) = Some v.
Proof. simpl. rewrite String.eqb_refl. reflexivity. Qed.

Lemma dict_get_without {A : Type} (k : string) ks (d : list (string * A)) :
  existsb (String.eqb k) ks = false ->
  dict_get k (dict_without ks d) = dict_get k d.
Proof.
  intros Hk. unfold dict_without.
  induction d as [|[k' v] d IH]; simpl; [reflexivity|].
  destruct (String.eqb_spec k k') as [->|Hne].
  - rewrite Hk. simpl. rewrite String.eqb_refl. reflexivity.
  - destruct (negb (existsb (String.eqb k') ks)); simpl; [|exact IH].
    destruct (String.eqb_spec k k'); [contradiction | exact IH].
Qed.

Lemma distinct_NoDup l : distinct l = true -> NoDup l.
Proof.
  induction l as [|x l IH]; simpl; intros H; constructor.
  - apply andb_prop in H. destruct H as [H _].
    intros Hin. apply negb_true_iff in H.
    assert (existsb (String.eqb x) l = true) as E.
    { apply existsb_exists. exists x. split; [exact Hin | apply String.eqb_refl]. }
    congruence.
  - apply IH. apply andb_prop in H. tauto.
Qed.

(** *** What [gather] returns *)

Lemma gather_spec {A : Type} (os : list (loc_item * result A)) :
  gather os = (oks os, errs os).
Proof.
  induction os as [|[l o] os IH]; simpl; [reflexivity|].
  rewrite IH. destruct o; reflexivity.
Qed.

Lemma finish_gather {A : Type} (build : list A -> value) os :
  finish build (gather os) =
  match errs os with
  | [] => Ok (build (oks os))
  | es => ValidationError es
  end.
Proof. rewrite gather_spec. reflexivity. Qed.

Lemma errors_of_finish {A : Type} (build : list A -> value) os :
  errors_of (finish build (gather os)) = errs os.
Proof. rewrite finish_gather. destruct (errs os); reflexivity. Qed.

Lemma finish_nonempty {A : Type} (build : list A -> value) os :
  finish build (gather os) <> ValidationError [].
Proof. rewrite finish_gather. destruct (errs os); discriminate. Qed.

Lemma oks_cons {A : Type} (o : loc_item * result A) os :
  oks (o :: os) =
  match snd o with Ok v => [v] | ValidationError _ => [] end ++ oks os.
Proof. reflexivity. Qed.

Lemma errs_cons {A : Type} (o : loc_item * result A) os :
  errs (o :: os) =
  match snd o with
  | Ok _ => []
  | ValidationError e => map (with_outer_location (fst o)) e
  end ++ errs os.
Proof. reflexivity. Qed.

Lemma errs_app {A : Type} (os1 os2 : list (loc_item * result A)) :
  errs (os1 ++ os2) = errs os1 ++ errs os2.
Proof. apply flat_map_app. Qed.

Lemma oks_app {A : Type} (os1 os2 : list (loc_item * result A)) :
  oks (os1 ++ os2) = oks os1 ++ oks os2.
Proof. apply flat_map_app. Qed.

(** No line error is lost: the errors of any one outcome are part of the
    errors gathered. *)
Lemma errs_In {A : Type} (os : list (loc_item * result A)) l es e :
  In (l, ValidationError es) os -> In e es ->
  In (with_outer_location l e) (errs os).
Proof.
  intros Ho He. unfold errs. apply in_flat_map.
  exists (l, ValidationError es). split; [exact Ho|].
  simpl. apply in_map. exact He.
Qed.

(** When nothing was gathered as an error, every outcome is a success,
    provided no outcome is a failure without line errors. *)
Lemma errs_nil_ok {A : Type} (os : list (loc_item * result A)) :
  (forall o, In o os -> snd o <> ValidationError []) ->
  errs os = [] ->
  forall o, In o os -> is_ok (snd o) = true.
Proof.
  intros Hne Herrs o Ho.
  destruct (snd o) as [a|es] eqn:E; [reflexivity|].
  exfalso. destruct es as [|e es].
  - apply (Hne o Ho). exact E.
  - destruct o as [l r]. simpl in E. subst r.
    pose proof (errs_In os l (e :: es) e Ho (or_introl eq_refl)) as Hin.
    rewrite Herrs in Hin. exact Hin.
Qed.

Lemma ok_errs_nil {A : Type} (os : list (loc_item * result A)) :
  (forall o, In o os -> is_ok (snd o) = true) -> errs os = [].
Proof.
  induction os as [|[l o] os IH]; intros H; [reflexivity|].
  unfold errs. simpl.
  pose proof (H (l, o) (or_introl eq_refl)) as Ho. simpl in Ho.
  destruct o; [|discriminate]. simpl.
  apply IH. intros o Hin. apply H. right. exact Hin.
Qed.

(** *** Records *)

Lemma validate_model_eq cls fields d :
  validate (t_model cls fields) (RDict d) =
  match errs (map (field_outcome d) fields) with
  | [] => Ok (VModel cls (oks (map (field_outcome d) fields)))
  | es => ValidationError es
  end.
Proof. exact (finish_gather (VModel cls) (map (field_outcome d) fields)). Qed.

Lemma errors_of_model cls fields d :
  errors_of (validate (t_model cls fields) (RDict d)) =
  errs (map (field_outcome d) fields).
Proof. rewrite validate_model_eq. destruct (errs _); reflexivity. Qed.

Lemma validate_items_eq v l :
  validate_items v l =
  match errs (item_outcomes v 0 l) with
  | [] => Ok (VList (oks (item_outcomes v 0 l)))
  | es => ValidationError es
  end.
Proof. exact (finish_gather VList (item_outcomes v 0 l)). Qed.

(** *** A failure always carries a line error *)

Lemma check_length_nonempty c s : check_length c s <> ValidationError [].
Proof.
  unfold check_length, fail.
  destruct (match min_length c with Some _ => _ | None => _ end); [discriminate|].
  destruct (match max_length c with Some _ => _ | None => _ end); discriminate.
Qed.

Lemma check_int_nonempty c z : check_int c z <> ValidationError [].
Proof.
  unfold check_int, fail.
  destruct (match le c with Some _ => _ | None => _ end); [discriminate|].
  destruct (match ge c with Some _ => _ | None => _ end); discriminate.
Qed.

Lemma check_float_nonempty c f : check_float c f <> ValidationError [].
Proof.
  unfold check_float, fail.
  destruct (match le c with Some _ => _ | None => _ end); [discriminate|].
  destruct (match ge c with Some _ => _ | None => _ end); discriminate.
Qed.

Lemma float_as_int_one f :
  (exists z, float_as_int f = Ok z) \/ (exists t, float_as_int f = fail t).
Proof.
  assert (forall z, (exists z', within_i64_floats z = Ok z') \/
                    (exists t, within_i64_floats z = fail t)) as Hw.
  { intros z. unfold within_i64_floats.
    destruct (_ && _); [left | right]; eexists; reflexivity. }
  unfold float_as_int. destruct f as [s|s| |s m e];
    try (right; eexists; reflexivity); try (left; eexists; reflexivity).
  destruct (0 <=? e)%Z; [apply Hw|].
  destruct (Z.pos m mod 2 ^ (- e) =? 0)%Z; [apply Hw|].
  right; eexists; reflexivity.
Qed.

Lemma float_as_int_nonempty f : float_as_int f <> ValidationError [].
Proof. destruct (float_as_int_one f) as [[z ->]|[t ->]]; discriminate. Qed.

Lemma parsed_one {A : Type} t (o : option A) :
  (exists a, parsed t o = Ok a) \/ parsed t o = fail t.
Proof. destruct o; [left; eexists; reflexivity | right; reflexivity]. Qed.

Lemma datetime_of_raw_one r :
  (exists d, datetime_of_raw r = Ok d) \/ (exists t, datetime_of_raw r = fail t).
Proof.
  assert (forall o : option datetime,
            (exists d, parsed datetime_parsing o = Ok d) \/
            (exists t, parsed datetime_parsing o = fail t)) as Hp.
  { intros o. destruct (parsed_one datetime_parsing o) as [H|H]; [left; exact H|].
    right. eexists. exact H. }
  destruct r; simpl; try (right; eexists; reflexivity);
    try (left; eexists; reflexivity); try apply Hp.
  destruct (fits_i64 z); [apply Hp|].
  destruct (float_of_int z); [apply Hp|]. right; eexists; reflexivity.
Qed.

Lemma date_of_raw_one r :
  (exists d, date_of_raw r = Ok d) \/ (exists t, date_of_raw r = fail t).
Proof.
  destruct r; simpl; try (right; eexists; reflexivity);
    try (left; eexists; reflexivity).
  destruct (str_as_date s); [left | right]; eexists; reflexivity.
Qed.

(** A temporal validator gives a value of its kind or one line error. *)
Lemma validate_datetime_one r :
  (exists d, validate_datetime r = Ok (VDatetime d)) \/
  (exists t, validate_datetime r = fail t).
Proof.
  unfold validate_datetime, datetime_from_date.
  destruct (datetime_of_raw_one r) as [[d ->]|[t ->]]; [left; eexists; reflexivity|].
  destruct (date_of_raw_one r) as [[d ->]|[t' ->]]; [left; eexists; reflexivity|].
  right. destruct t'; eexists; reflexivity.
Qed.

Lemma validate_date_one r :
  (exists d, validate_date r = Ok (VDate d)) \/
  (exists t, validate_date r = fail t).
Proof.
  unfold validate_date, date_from_datetime.
  destruct (date_of_raw_one r) as [[d ->]|[t ->]]; [left; eexists; reflexivity|].
  destruct (datetime_of_raw_one r) as [[d ->]|[t' ->]].
  - destruct (time_eqb (at_ d) midnight); [left | right]; eexists; reflexivity.
  - right. destruct t'; eexists; reflexivity.
Qed.

Lemma int_of_raw_nonempty r : int_of_raw r <> ValidationError [].
Proof.
  destruct r; simpl; try discriminate.
  - apply float_as_int_nonempty.
  - destruct (str_as_int s); discriminate.
Qed.

Lemma float_of_raw_nonempty r : float_of_raw r <> ValidationError [].
Proof.
  destruct r; simpl; try discriminate.
  - destruct (float_of_int z); discriminate.
  - destruct (str_as_float s); discriminate.
Qed.

Lemma validate_nonempty t : forall r, validate t r <> ValidationError [].
Proof.
  induction t using ty_nested_ind; intros r; simpl.
  - destruct r; simpl; try discriminate. apply check_length_nonempty.
  - unfold validate_int. pose proof (int_of_raw_nonempty r) as Hr.
    destruct (int_of_raw r); [apply check_int_nonempty|].
    intros E. apply Hr. injection E as ->. reflexivity.
  - unfold validate_float. pose proof (float_of_raw_nonempty r) as Hr.
    destruct (float_of_raw r); [apply check_float_nonempty|].
    intros E. apply Hr. injection E as ->. reflexivity.
  - destruct (validate_datetime_one r) as [[d ->]|[k ->]]; discriminate.
  - destruct (validate_date_one r) as [[d ->]|[k ->]]; discriminate.
  - unfold validate_enum, fail. destruct r; try discriminate.
    destruct (find _ _); discriminate.
  - destruct r; try apply IHt. discriminate.
  - destruct r; try discriminate. apply finish_nonempty.
  - destruct r; try discriminate. apply finish_nonempty.
Qed.

Lemma validate_field_nonempty t f d :
  validate_field (validate t) f d <> ValidationError [].
Proof.
  unfold validate_field, fail. destruct (dict_get (lookup_key f) d) as [r|].
  - pose proof (validate_nonempty t r) as H.
    destruct (validate t r); [discriminate|].
    intros E. apply H. injection E as ->. reflexivity.
  - destruct (default_value (fdefault f)); discriminate.
Qed.

Lemma field_outcome_nonempty d f : snd (field_outcome d f) <> ValidationError [].
Proof. apply validate_field_nonempty. Qed.

Lemma field_outcomes_nonempty d fields :
  forall o, In o (map (field_outcome d) fields) -> snd o <> ValidationError [].
Proof.
  intros o Ho. apply in_map_iff in Ho. destruct Ho as [f [<- _]].
  apply field_outcome_nonempty.
Qed.

(** *** A record is built exactly when no field is in violation *)

Lemma violated_false d f :
  violated d f = false <-> is_ok (snd (field_outcome d f)) = true.
Proof. unfold violated. rewrite negb_false_iff. tauto. Qed.

Lemma model_ok_iff cls fields d :
  is_ok (validate (t_model cls fields) (RDict d)) = true <->
  (forall f, In f fields -> violated d f = false).
Proof.
  rewrite validate_model_eq. split.
  - intros H f Hf. apply violated_false.
    destruct (errs (map (field_outcome d) fields)) eqn:E; [|discriminate].
    apply (errs_nil_ok (map (field_outcome d) fields)
             (field_outcomes_nonempty d fields) E (field_outcome d f)).
    apply in_map. exact Hf.
  - intros H. rewrite ok_errs_nil; [reflexivity|].
    intros o Ho. apply in_map_iff in Ho. destruct Ho as [f [<- Hf]].
    apply violated_false, H, Hf.
Qed.

Lemma model_ok_value cls fields d x :
  validate (t_model cls fields) (RDict d) = Ok x ->
  x = VModel cls (oks (map (field_outcome d) fields)).
Proof.
  rewrite validate_model_eq.
  destruct (errs (map (field_outcome d) fields)); [|discriminate].
  intros H. injection H as <-. reflexivity.
Qed.

Lemma model_ok_intro cls fields d :
  (forall f, In f fields -> violated d f = false) ->
  validate (t_model cls fields) (RDict d) =
  Ok (VModel cls (oks (map (field_outcome d) fields))).
Proof.
  intros H. rewrite validate_model_eq. rewrite ok_errs_nil; [reflexivity|].
  intros o Ho. apply in_map_iff in Ho. destruct Ho as [f [<- Hf]].
  apply violated_false, H, Hf.
Qed.

Lemma model_ok_fields cls fields d x :
  validate (t_model cls fields) (RDict d) = Ok x ->
  forall f, In f fields -> violated d f = false.
Proof.
  intros H. apply (model_ok_iff cls). rewrite H. reflexivity.
Qed.

(** The line errors of a field in violation are in the report of the
    record, under the field's key. *)
Lemma model_reports_field cls fields d f es e :
  In f fields ->
  snd (field_outcome d f) = ValidationError es ->
  In e es ->
  In (with_outer_location (LField (lookup_key f)) e)
     (errors_of (validate (t_model cls fields) (RDict d))).
Proof.
  intros Hf Ho He. rewrite errors_of_model.
  apply errs_In with (es := es); [|exact He].
  apply in_map_iff. exists f. split; [|exact Hf].
  unfold field_outcome in *. simpl in *. rewrite Ho. reflexivity.
Qed.

(** A field sees the raw mapping through its own key only. *)
Lemma field_outcome_ext d d' f :
  dict_get (lookup_key f) d = dict_get (lookup_key f) d' ->
  field_outcome d f = field_outcome d' f.
Proof.
  intros H. unfold field_outcome, validate_field. rewrite H. reflexivity.
Qed.

Lemma violated_ext d d' f :
  dict_get (lookup_key f) d = dict_get (lookup_key f) d' ->
  violated d f = violated d' f.
Proof. intros H. unfold violated. rewrite (field_outcome_ext d d' f H). reflexivity. Qed.

Lemma model_ext cls fields d d' :
  (forall f, In f fields -> dict_get (lookup_key f) d = dict_get (lookup_key f) d') ->
  validate (t_model cls fields) (RDict d) = validate (t_model cls fields) (RDict d').
Proof.
  intros H. rewrite !validate_model_eq.
  rewrite (map_ext_in (field_outcome d) (field_outcome d')); [reflexivity|].
  intros f Hf. apply field_outcome_ext, H, Hf.
Qed.

Lemma field_outcome_present d f r :
  dict_get (lookup_key f) d = Some r ->
  snd (field_outcome d f) =
  match validate (fty f) r with
  | Ok x => Ok (fname f, x)
  | ValidationError es => ValidationError es
  end.
Proof. intros H. unfold field_outcome, validate_field. simpl. rewrite H. reflexivity. Qed.

Lemma field_outcome_absent d f :
  dict_get (lookup_key f) d = None ->
  snd (field_outcome d f) =
  match default_value (fdefault f) with
  | Some x => Ok (fname f, x)
  | None => fail missing
  end.
Proof. intros H. unfold field_outcome, validate_field. simpl. rewrite H. reflexivity. Qed.

Lemma field_outcome_name d f nv :
  snd (field_outcome d f) = Ok nv -> fst nv = fname f.
Proof.
  unfold field_outcome, validate_field. simpl.
  destruct (dict_get (lookup_key f) d) as [r|].
  - destruct (validate (fty f) r); [|discriminate]. intros H. injection H as <-. reflexivity.
  - destruct (default_value (fdefault f)); [|discriminate].
    intros H. injection H as <-. reflexivity.
Qed.

(** The attribute of a validated record under a name is the value of the
    first field declared with that name. *)
Lemma attrs_get d fields n :
  (forall f, In f fields -> violated d f = false) ->
  dict_get n (oks (map (field_outcome d) fields)) =
  match find (named n) fields with
  | Some f => field_value d f
  | None => None
  end.
Proof.
  induction fields as [|f fields IH]; intros H; [reflexivity|].
  assert (violated d f = false) as Hf by (apply H; left; reflexivity).
  apply violated_false in Hf.
  rewrite map_cons, oks_cons. unfold field_value.
  destruct (snd (field_outcome d f)) as [[n' x]|es] eqn:E; [|discriminate].
  pose proof (field_outcome_name d f _ E) as Hn. simpl in Hn. subst n'.
  cbn [app dict_get find]. unfold named at 1.
  rewrite (String.eqb_sym (fname f) n).
  destruct (String.eqb n (fname f)).
  - rewrite E. reflexivity.
  - apply IH. intros g Hg. apply H. right. exact Hg.
Qed.

Lemma getattr_validated cls fields d x n :
  validate (t_model cls fields) (RDict d) = Ok x ->
  getattr x n =
  match find (named n) fields with
  | Some f => field_value d f
  | None => None
  end.
Proof.
  intros H. rewrite (model_ok_value _ _ _ _ H). simpl.
  apply attrs_get. exact (model_ok_fields _ _ _ _ H).
Qed.

(** *** Lists *)

Lemma item_outcomes_cons v i r l :
  item_outcomes v i (r :: l) = (LIndex i, v r) :: item_outcomes v (S i) l.
Proof. reflexivity. Qed.

Lemma items_intro v : forall l i vs,
  Forall2 (fun r y => v r = Ok y) l vs ->
  errs (item_outcomes v i l) = [] /\ oks (item_outcomes v i l) = vs.
Proof.
  induction l as [|r l IH]; intros i vs H; inversion H; subst.
  - split; reflexivity.
  - rewrite item_outcomes_cons, errs_cons, oks_cons. simpl.
    match goal with E : v r = Ok _ |- _ => rewrite E end.
    match goal with F : Forall2 _ l _ |- _ => destruct (IH (S i) _ F) as [-> ->] end.
    split; reflexivity.
Qed.

Lemma items_inv v :
  (forall r, v r <> ValidationError []) ->
  forall l i, errs (item_outcomes v i l) = [] ->
  Forall2 (fun r y => v r = Ok y) l (oks (item_outcomes v i l)).
Proof.
  intros Hne. induction l as [|r l IH]; intros i H.
  - constructor.
  - rewrite item_outcomes_cons, errs_cons in H.
    rewrite item_outcomes_cons, oks_cons. simpl in *.
    apply app_eq_nil in H. destruct H as [H1 H2].
    destruct (v r) as [y|es] eqn:E.
    + constructor; [exact E | apply IH, H2].
    + exfalso. apply (Hne r). rewrite E. f_equal.
      destruct es; [reflexivity | discriminate].
Qed.

Lemma validate_items_ok v l x :
  (forall r, v r <> ValidationError []) ->
  validate_items v l = Ok x ->
  exists vs, x = VList vs /\ Forall2 (fun r y => v r = Ok y) l vs.
Proof.
  intros Hne. rewrite validate_items_eq.
  destruct (errs (item_outcomes v 0 l)) eqn:E; [|discriminate].
  intros H. injection H as <-.
  exists (oks (item_outcomes v 0 l)). split; [reflexivity|].
  apply items_inv; assumption.
Qed.

Lemma validate_items_intro v l vs :
  Forall2 (fun r y => v r = Ok y) l vs ->
  validate_items v l = Ok (VList vs).
Proof.
  intros H. rewrite validate_items_eq.
  destruct (items_intro v l 0 vs H) as [-> ->]. reflexivity.
Qed.

(** *** Scalars that validate *)

Lemma check_length_ok c s v : check_length c s = Ok v -> v = VStr s.
Proof.
  unfold check_length, fail.
  destruct (match min_length c with Some _ => _ | None => _ end); [discriminate|].
  destruct (match max_length c with Some _ => _ | None => _ end); [discriminate|].
  intros H. injection H as <-. reflexivity.
Qed.

Lemma check_int_ok c z v : check_int c z = Ok v -> v = VInt z.
Proof.
  unfold check_int, fail.
  destruct (match le c with Some _ => _ | None => _ end); [discriminate|].
  destruct (match ge c with Some _ => _ | None => _ end); [discriminate|].
  intros H. injection H as <-. reflexivity.
Qed.

Lemma check_float_ok c f v : check_float c f = Ok v -> v = VFloat f.
Proof.
  unfold check_float, fail.
  destruct (match le c with Some _ => _ | None => _ end); [discriminate|].
  destruct (match ge c with Some _ => _ | None => _ end); [discriminate|].
  intros H. injection H as <-. reflexivity.
Qed.

Lemma validate_str_ok c r v :
  validate_str c r = Ok v -> exists s, r = RStr s /\ v = VStr s /\ check_length c s = Ok v.
Proof.
  destruct r; try discriminate. simpl. intros H. exists s.
  split; [reflexivity|]. split; [apply (check_length_ok c), H | exact H].
Qed.

Lemma validate_int_ok c r v :
  validate_int c r = Ok v -> exists z, v = VInt z /\ check_int c z = Ok v.
Proof.
  unfold validate_int. destruct (int_of_raw r) as [z|]; [|discriminate].
  intros H. exists z. split; [apply (check_int_ok c), H | exact H].
Qed.

Lemma validate_float_ok c r v :
  validate_float c r = Ok v -> exists f, v = VFloat f /\ check_float c f = Ok v.
Proof.
  unfold validate_float. destruct (float_of_raw r) as [f|]; [|discriminate].
  intros H. exists f. split; [apply (check_float_ok c), H | exact H].
Qed.

(** A datetime under a date field is taken at midnight only. *)
Lemma validate_date_datetime d :
  validate_date (RDatetime d) =
  if time_eqb (at_ d) midnight then Ok (VDate (on d))
  else fail date_from_datetime_inexact.
Proof.
  unfold validate_date, date_from_datetime. simpl.
  destruct (time_eqb (at_ d) midnight); reflexivity.
Qed.

Lemma validate_datetime_ok r v : validate_datetime r = Ok v -> exists d, v = VDatetime d.
Proof.
  destruct (validate_datetime_one r) as [[d ->]|[k ->]]; [|discriminate].
  intros H. injection H as <-. eexists; reflexivity.
Qed.

Lemma validate_date_ok r v : validate_date r = Ok v -> exists d, v = VDate d.
Proof.
  destruct (validate_date_one r) as [[d ->]|[k ->]]; [|discriminate].
  intros H. injection H as <-. eexists; reflexivity.
Qed.

Lemma validate_enum_ok e r v :
  validate_enum e r = Ok v ->
  exists s m, r = RStr s /\ v = VEnum (ename e) m /\
              find (fun m => String.eqb (mvalue m) s) (members e) = Some m.
Proof.
  destruct r; simpl; try discriminate.
  destruct (find _ (members e)) as [m|] eqn:E; [|discriminate].
  intros H. injection H as <-. exists s, m. repeat split. exact E.
Qed.

(** *** Serialization followed by validation *)

Lemma dump_scalar_None v : dump_scalar v = RNone -> v = VNone.
Proof. destruct v; simpl; intros H; try discriminate; reflexivity. Qed.

Lemma model_dump_None t : forall v, model_dump t v = RNone -> v = VNone.
Proof.
  induction t using ty_nested_ind; intros v; simpl;
    try apply dump_scalar_None.
  - destruct v; try apply IHt. reflexivity.
  - destruct v; try apply dump_scalar_None. discriminate.
  - destruct v; try apply dump_scalar_None. discriminate.
Qed.

Lemma find_named_self fields f :
  NoDup (map (@fname ty) fields) -> In f fields ->
  find (named (fname f)) fields = Some f.
Proof.
  induction fields as [|g fields IH]; intros Hnd Hin; [contradiction|].
  inversion Hnd as [|? ? Hnotin Hnd']; subst. simpl. unfold named at 1.
  destruct Hin as [->|Hin].
  - rewrite String.eqb_refl. reflexivity.
  - destruct (String.eqb_spec (fname g) (fname f)) as [E|_].
    + exfalso. apply Hnotin. rewrite E. apply in_map. exact Hin.
    + apply IH; assumption.
Qed.

(** In a dict with one binding per field at most, under distinct keys,
    the key of a field leads to the binding made for that field. *)
Lemma dict_get_flat_map (h : field_info ty -> list (string * raw)) fields f y :
  NoDup (map (@lookup_key ty) fields) ->
  (forall g, In g fields -> h g = [] \/ exists z, h g = [(lookup_key g, z)]) ->
  In f fields -> h f = [(lookup_key f, y)] ->
  dict_get (lookup_key f) (flat_map h fields) = Some y.
Proof.
  induction fields as [|g fields IH]; intros Hnd Hh Hin Hf; [contradiction|].
  inversion Hnd as [|? ? Hnotin Hnd']; subst. simpl.
  destruct Hin as [->|Hin].
  - rewrite Hf. simpl. rewrite String.eqb_refl. reflexivity.
  - assert (lookup_key f <> lookup_key g) as Hne.
    { intros E. apply Hnotin. rewrite <- E. apply in_map. exact Hin. }
    assert (dict_get (lookup_key f) (flat_map h fields) = Some y) as Hrest.
    { apply IH; try assumption. intros g' Hg'. apply Hh. right. exact Hg'. }
    destruct (Hh g (or_introl eq_refl)) as [->|[z ->]].
    + exact Hrest.
    + simpl. destruct (String.eqb_spec (lookup_key f) (lookup_key g));
        [contradiction | exact Hrest].
Qed.

Lemma default_roundtrip f x :
  default_fits f = true ->
  default_value (fdefault f) = Some x ->
  validate (fty f) (model_dump (fty f) x) = Ok x.
Proof.
  unfold default_fits. destruct (fdefault f); simpl; intros Hfit Hx.
  - discriminate.
  - injection Hx as <-. destruct (fty f); try discriminate. reflexivity.
  - injection Hx as <-. destruct (fty f); try discriminate. reflexivity.
Qed.

Lemma field_value_roundtrip d f x :
  default_fits f = true ->
  (forall r v, validate (fty f) r = Ok v ->
               validate (fty f) (model_dump (fty f) v) = Ok v) ->
  field_value d f = Some x ->
  validate (fty f) (model_dump (fty f) x) = Ok x.
Proof.
  intros Hfit IH. unfold field_value, field_outcome, validate_field. simpl.
  destruct (dict_get (lookup_key f) d) as [r|].
  - destruct (validate (fty f) r) as [y|] eqn:E; [|discriminate].
    simpl. intros H. injection H as <-. apply (IH r), E.
  - destruct (default_value (fdefault f)) as [y|] eqn:E; [|discriminate].
    simpl. intros H. injection H as <-. apply default_roundtrip; assumption.
Qed.

Lemma field_value_outcome d f :
  violated d f = false ->
  exists x, field_value d f = Some x /\ snd (field_outcome d f) = Ok (fname f, x).
Proof.
  intros H. apply violated_false in H. unfold field_value.
  destruct (snd (field_outcome d f)) as [[n x]|] eqn:E; [|discriminate].
  pose proof (field_outcome_name d f _ E) as Hn. simpl in Hn. subst n.
  exists x. split; reflexivity.
Qed.

Lemma roundtrip t :
  well_formed t = true ->
  forall r v, validate t r = Ok v -> validate t (model_dump t v) = Ok v.
Proof.
  induction t using ty_nested_ind; intros Hwf r v Hv; simpl in Hv.
  - destruct (validate_str_ok c r v Hv) as [s [_ [-> Hc]]]. exact Hc.
  - destruct (validate_int_ok c r v Hv) as [z [-> Hc]]. exact Hc.
  - destruct (validate_float_ok c r v Hv) as [f [-> Hc]]. exact Hc.
  - destruct (validate_datetime_ok r v Hv) as [d ->]. reflexivity.
  - destruct (validate_date_ok r v Hv) as [d ->]. reflexivity.
  - destruct (validate_enum_ok e r v Hv) as [s [m [_ [-> Hfind]]]].
    simpl. pose proof (find_some _ _ Hfind) as [_ Hm].
    apply String.eqb_eq in Hm. rewrite Hm, Hfind. reflexivity.
  - simpl in Hwf.
    assert (validate t (model_dump t v) = Ok v -> v <> VNone ->
            validate (t_optional t) (model_dump (t_optional t) v) = Ok v) as Hstep.
    { intros Ht Hnn. simpl.
      destruct v; try contradiction;
        (destruct (model_dump t _) eqn:E; try exact Ht;
         apply model_dump_None in E; discriminate). }
    destruct v; try (apply Hstep; [|discriminate];
      destruct r; try discriminate; eapply IHt; eassumption).
    reflexivity.
  - simpl in Hwf. destruct r; try discriminate.
    destruct (validate_items_ok _ l v (validate_nonempty t) Hv) as [vs [-> Hall]].
    simpl. apply validate_items_intro.
    clear Hv. induction Hall as [|r y l vs Hy _ IHall]; constructor.
    + apply (IHt Hwf r), Hy.
    + exact IHall.
  - destruct r; try discriminate.
    simpl in Hwf. apply andb_prop in Hwf. destruct Hwf as [Hwf Hall].
    apply andb_prop in Hwf. destruct Hwf as [Hnames Hkeys].
    apply distinct_NoDup in Hnames. apply distinct_NoDup in Hkeys.
    rewrite forallb_forall in Hall.
    pose proof (model_ok_fields _ _ _ _ Hv) as Hok.
    rewrite (model_ok_value _ _ _ _ Hv).
    set (attrs := oks (map (field_outcome d) fields)).
    change (model_dump (t_model cls fields) (VModel cls attrs)) with
      (RDict (flat_map (fun f =>
                match dict_get (fname f) attrs with
                | Some x => [(lookup_key f, model_dump (fty f) x)]
                | None => []
                end) fields)).
    set (h := fun f : field_info ty =>
                match dict_get (fname f) attrs with
                | Some x => [(lookup_key f, model_dump (fty f) x)]
                | None => []
                end).
    assert (forall f, In f fields -> dict_get (fname f) attrs = field_value d f) as Hattr.
    { intros f Hf. unfold attrs. rewrite (attrs_get d fields (fname f) Hok).
      rewrite (find_named_self fields f Hnames Hf). reflexivity. }
    rewrite (model_ok_intro cls fields (flat_map h fields)).
    + f_equal. f_equal. unfold attrs. f_equal. apply map_ext_in. intros f Hf.
      destruct (field_value_outcome d f (Hok f Hf)) as [x [Hx Ho]].
      assert (dict_get (lookup_key f) (flat_map h fields)
              = Some (model_dump (fty f) x)) as Hget.
      { apply dict_get_flat_map; try assumption.
        - intros g Hg. unfold h. destruct (dict_get (fname g) attrs);
            [right; eexists; reflexivity | left; reflexivity].
        - unfold h. rewrite (Hattr f Hf), Hx. reflexivity. }
      unfold field_outcome in *. f_equal. simpl in Ho. rewrite Ho.
      unfold validate_field at 1. rewrite Hget.
      rewrite (field_value_roundtrip d f x); [reflexivity | | | exact Hx].
      * specialize (Hall f Hf). apply andb_prop in Hall. tauto.
      * rewrite Forall_forall in H. intros r' v'. apply (H f Hf).
        specialize (Hall f Hf). apply andb_prop in Hall. tauto.
    + intros f Hf.
      destruct (field_value_outcome d f (Hok f Hf)) as [x [Hx Ho]].
      assert (dict_get (lookup_key f) (flat_map h fields)
              = Some (model_dump (fty f) x)) as Hget.
      { apply dict_get_flat_map; try assumption.
        - intros g Hg. unfold h. destruct (dict_get (fname g) attrs);
            [right; eexists; reflexivity | left; reflexivity].
        - unfold h. rewrite (Hattr f Hf), Hx. reflexivity. }
      apply violated_false. rewrite (field_outcome_present _ f _ Hget).
      rewrite (field_value_roundtrip d f x); [reflexivity | | | exact Hx].
      * specialize (Hall f Hf). apply andb_prop in Hall. tauto.
      * rewrite Forall_forall in H. intros r' v'. apply (H f Hf).
        specialize (Hall f Hf). apply andb_prop in Hall. tauto.
Qed.

(** *** Code points *)




(** Two code points in six bytes, and six in eighteen. *)
Lemma utf8_samples :
  utf8 [26085; 26412]%N = "日本" /\
  utf8 [2407; 2408; 2409; 2410; 2411; 2412]%N = "१२३४५६" /\
  utf8 [99; 97; 102; 233; 49]%N = "café1".
Proof. split; [|split]; reflexivity. Qed.

(** *** Floats read as integers *)

Lemma float_as_int_range f z :
  float_as_int f = Ok z -> (- 2 ^ 63 < z < 2 ^ 63)%Z.
Proof.
  assert (forall y, within_i64_floats y = Ok z -> (- 2 ^ 63 < z < 2 ^ 63)%Z) as Hw.
  { intros y. unfold within_i64_floats.
    destruct (Z.ltb_spec (- 2 ^ 63) y) as [H1|_]; cbn [andb];
      [|intros E; discriminate E].
    destruct (Z.ltb_spec y (2 ^ 63)) as [H2|_]; intros E; [|discriminate E].
    injection E as <-. split; assumption. }
  unfold float_as_int. destruct f as [s|s| |s m e]; try discriminate.
  - intros E. injection E as <-. split; reflexivity.
  - destruct (0 <=? e)%Z; [apply Hw|].
    destruct (Z.pos m mod 2 ^ (- e) =? 0)%Z; [apply Hw | discriminate].
Qed.

Lemma float_as_int_huge :
  int_of_raw (RFloat Samples.f_1e19) = fail int_parsing_size.
Proof. reflexivity. Qed.

(** *** Round trip of the values that inhabit an annotation *)

Lemma conforming_dump_keys cls fields cls' attrs :
  conforms (t_model cls fields) (VModel cls' attrs) = true ->
  exists d, model_dump (t_model cls fields) (VModel cls' attrs) = RDict d /\
            map fst d = map (@lookup_key ty) fields.
Proof.
  simpl. intros H. apply andb_prop in H. destruct H as [_ Hall].
  eexists. split; [reflexivity|].
  induction fields as [|f fs IH]; simpl in *; [reflexivity|].
  apply andb_prop in Hall. destruct Hall as [Hf Hall].
  destruct (dict_get (fname f) attrs); [|discriminate].
  simpl. f_equal. apply IH, Hall.
Qed.

Lemma within_length_check c s :
  within_length c s = true -> check_length c s = Ok (VStr s).
Proof.
  unfold within_length, check_length. intros H.
  apply andb_prop in H. destruct H as [Hmin Hmax].
  assert ((match min_length c with Some n => (len s <? n)%nat | None => false end)
          = false) as ->.
  { destruct (min_length c); [|reflexivity].
    apply Nat.ltb_ge. apply Nat.leb_le. exact Hmin. }
  assert ((match max_length c with Some n => (n <? len s)%nat | None => false end)
          = false) as ->.
  { destruct (max_length c); [|reflexivity].
    apply Nat.ltb_ge. apply Nat.leb_le. exact Hmax. }
  reflexivity.
Qed.

Lemma within_int_check c z : within_int c z = true -> check_int c z = Ok (VInt z).
Proof.
  unfold within_int, check_int. intros H.
  apply andb_prop in H. destruct H as [Hge Hle].
  assert ((match le c with Some b => negb (z <=? b)%Z | None => false end) = false) as ->.
  { destruct (le c); [|reflexivity]. rewrite Hle. reflexivity. }
  assert ((match ge c with Some b => negb (b <=? z)%Z | None => false end) = false) as ->.
  { destruct (ge c); [|reflexivity]. rewrite Hge. reflexivity. }
  reflexivity.
Qed.

Lemma within_float_check c f :
  within_float c f = true -> check_float c f = Ok (VFloat f).
Proof.
  unfold within_float, check_float, float_bound. intros H.
  apply andb_prop in H. destruct H as [Hge Hle].
  assert ((match le c with
          | Some b => negb (SFleb f (binary_normalize prec emax b 0 false))
          | None => false
          end) = false) as ->.
  { destruct (le c); [|reflexivity]. rewrite Hle. reflexivity. }
  assert ((match ge c with
          | Some b => negb (SFleb (binary_normalize prec emax b 0 false) f)
          | None => false
          end) = false) as ->.
  { destruct (ge c); [|reflexivity]. rewrite Hge. reflexivity. }
  reflexivity.
Qed.

Lemma member_eqb_eq a b : member_eqb a b = true -> a = b.
Proof.
  destruct a as [n v], b as [n' v']. unfold member_eqb. simpl. intros H.
  apply andb_prop in H. destruct H as [Hn Hv].
  apply String.eqb_eq in Hn. apply String.eqb_eq in Hv. subst. reflexivity.
Qed.

(** Where values are distinct a member is found under its own value. *)
Lemma find_by_value ms m :
  distinct (map mvalue ms) = true -> In m ms ->
  find (fun m' => String.eqb (mvalue m') (mvalue m)) ms = Some m.
Proof.
  induction ms as [|a ms IH]; simpl; intros Hd Hin; [contradiction|].
  apply andb_prop in Hd. destruct Hd as [Hn Hd].
  destruct Hin as [->|Hin]; [rewrite String.eqb_refl; reflexivity|].
  destruct (String.eqb_spec (mvalue a) (mvalue m)) as [E|_]; [|apply IH; assumption].
  exfalso. apply negb_true_iff in Hn.
  assert (existsb (String.eqb (mvalue a)) (map mvalue ms) = true) as Hex.
  { apply existsb_exists. exists (mvalue m). split.
    - apply in_map. exact Hin.
    - rewrite E. apply String.eqb_refl. }
  rewrite Hex in Hn. discriminate.
Qed.

Lemma same_names_eq a : forall b, same_names a b = true -> a = b.
Proof.
  induction a as [|x a IH]; intros [|y b] H; simpl in H; try discriminate.
  - reflexivity.
  - apply andb_prop in H. destruct H as [Hx Hr].
    apply String.eqb_eq in Hx. subst. f_equal. apply IH, Hr.
Qed.

Lemma dict_get_In {A : Type} (l : list (string * A)) k v :
  NoDup (map fst l) -> In (k, v) l -> dict_get k l = Some v.
Proof.
  induction l as [|[k' v'] l IH]; simpl; intros Hnd Hin; [contradiction|].
  inversion Hnd as [|? ? Hnotin Hnd']; subst.
  destruct Hin as [E|Hin].
  - injection E as -> ->. rewrite String.eqb_refl. reflexivity.
  - destruct (String.eqb_spec k k') as [->|_]; [|apply IH; assumption].
    exfalso. apply Hnotin. change k' with (fst (k', v)). apply in_map. exact Hin.
Qed.

(** The attributes of a record are the values of its fields, when the
    fields all succeed with the attributes of their names. *)
Lemma oks_attrs d (attrs : list (string * value)) :
  forall fs part,
    map fst part = map (@fname ty) fs ->
    (forall k v, In (k, v) part -> dict_get k attrs = Some v) ->
    (forall f, In f fs -> exists x, dict_get (fname f) attrs = Some x /\
                        snd (field_outcome d f) = Ok (fname f, x)) ->
    oks (map (field_outcome d) fs) = part.
Proof.
  induction fs as [|f fs IH]; intros [|[k v] part] Hn Hpart Hfs;
    simpl in Hn; try discriminate; [reflexivity|].
  injection Hn as Hk Hn. subst k.
  destruct (Hfs f (or_introl eq_refl)) as [x [Hx Ho]].
  rewrite (Hpart (fname f) v (or_introl eq_refl)) in Hx. injection Hx as <-.
  change (map (field_outcome d) (f :: fs))
    with (field_outcome d f :: map (field_outcome d) fs).
  rewrite oks_cons, Ho. simpl. f_equal. apply IH.
  - exact Hn.
  - intros k' v' Hin. apply Hpart. right. exact Hin.
  - intros g Hg. apply Hfs. right. exact Hg.
Qed.

(** Every value that inhabits an annotation is validated, from its
    serialization, to itself. *)
Lemma conforming_roundtrip t :
  well_formed t = true -> unambiguous t = true ->
  forall v, conforms t v = true -> validate t (model_dump t v) = Ok v.
Proof.
  induction t using ty_nested_ind; intros Hwf Hun v Hv; simpl in Hv.
  - destruct v; try discriminate. apply within_length_check, Hv.
  - destruct v; try discriminate. apply within_int_check, Hv.
  - destruct v; try discriminate. apply within_float_check, Hv.
  - destruct v; try discriminate. reflexivity.
  - destruct v; try discriminate. reflexivity.
  - destruct v; try discriminate.
    apply andb_prop in Hv. destruct Hv as [Hcls Hm].
    apply String.eqb_eq in Hcls. subst cls.
    apply existsb_exists in Hm. destruct Hm as [m' [Hin Heq]].
    apply member_eqb_eq in Heq. subst m'.
    simpl. simpl in Hun. rewrite (find_by_value _ _ Hun Hin). reflexivity.
  - simpl in Hwf, Hun.
    assert (validate t (model_dump t v) = Ok v -> v <> VNone ->
            validate (t_optional t) (model_dump (t_optional t) v) = Ok v) as Hstep.
    { intros Ht Hnn. simpl.
      destruct v; try contradiction;
        (destruct (model_dump t _) eqn:E; try exact Ht;
         apply model_dump_None in E; discriminate). }
    destruct v; try (apply Hstep; [apply IHt; assumption | discriminate]).
    reflexivity.
  - simpl in Hwf, Hun. destruct v; try discriminate.
    simpl. apply validate_items_intro.
    induction l as [|y l IHl]; simpl in *; constructor.
    + apply andb_prop in Hv. apply IHt; tauto.
    + apply andb_prop in Hv. apply IHl. tauto.
  - destruct v; try discriminate.
    apply andb_prop in Hv. destruct Hv as [Hv Hall].
    apply andb_prop in Hv. destruct Hv as [Hcls Hnames].
    apply String.eqb_eq in Hcls. subst cls0.
    apply same_names_eq in Hnames. rewrite forallb_forall in Hall.
    simpl in Hwf, Hun. apply andb_prop in Hwf. destruct Hwf as [Hwf Hfit].
    apply andb_prop in Hwf. destruct Hwf as [Hnd Hkeys].
    apply distinct_NoDup in Hnd. apply distinct_NoDup in Hkeys.
    rewrite forallb_forall in Hfit, Hun.
    change (model_dump (t_model cls fields) (VModel cls attrs)) with
      (RDict (flat_map (fun f =>
                match dict_get (fname f) attrs with
                | Some x => [(lookup_key f, model_dump (fty f) x)]
                | None => []
                end) fields)).
    set (h := fun f : field_info ty =>
                match dict_get (fname f) attrs with
                | Some x => [(lookup_key f, model_dump (fty f) x)]
                | None => []
                end).
    assert (forall f, In f fields ->
              exists x, dict_get (fname f) attrs = Some x /\
                        snd (field_outcome (flat_map h fields) f) = Ok (fname f, x))
      as Hfields.
    { intros f Hf. specialize (Hall f Hf).
      destruct (dict_get (fname f) attrs) as [x|] eqn:Hx; [|discriminate].
      exists x. split; [reflexivity|].
      assert (dict_get (lookup_key f) (flat_map h fields)
              = Some (model_dump (fty f) x)) as Hget.
      { apply dict_get_flat_map; try assumption.
        - intros g Hg. unfold h. destruct (dict_get (fname g) attrs);
            [right; eexists; reflexivity | left; reflexivity].
        - unfold h. rewrite Hx. reflexivity. }
      rewrite (field_outcome_present _ f _ Hget).
      rewrite Forall_forall in H. rewrite (H f Hf); [reflexivity | | | exact Hall].
      - specialize (Hfit f Hf). apply andb_prop in Hfit. tauto.
      - apply Hun, Hf. }
    rewrite (model_ok_intro cls fields (flat_map h fields)).
    + f_equal. f_equal. apply (oks_attrs _ attrs).
      * exact Hnames.
      * intros k x Hin. apply dict_get_In; [|exact Hin]. rewrite Hnames. exact Hnd.
      * exact Hfields.
    + intros f Hf. destruct (Hfields f Hf) as [x [_ Ho]].
      unfold violated. rewrite Ho. reflexivity.
Qed.

(** *** Reports *)

Lemma errors_of_In {A : Type} (r : result A) e :
  In e (errors_of r) -> exists es, r = ValidationError es /\ In e es.
Proof.
  destruct r as [a|es]; simpl; [contradiction|].
  intros H. exists es. split; [reflexivity | exact H].
Qed.

(** Each field in violation adds a line error of its own. *)
Lemma errs_count d fields :
  List.length (filter (violated d) fields)
  <= List.length (errs (map (field_outcome d) fields)).
Proof.
  induction fields as [|f fields IH]; [apply le_n|].
  rewrite map_cons, errs_cons, length_app. cbn [filter].
  unfold violated at 1.
  pose proof (field_outcome_nonempty d f) as Hne.
  destruct (snd (field_outcome d f)) as [a|es]; simpl.
  - exact IH.
  - destruct es as [|e es]; [contradiction Hne; reflexivity|].
    simpl. lia.
Qed.

(** When one field alone is in violation, the report is that field's. *)
Lemma errs_single d before f after es :
  (forall g, In g (before ++ after) -> violated d g = false) ->
  snd (field_outcome d f) = ValidationError es ->
  errs (map (field_outcome d) (before ++ f :: after)) =
  map (with_outer_location (LField (lookup_key f))) es.
Proof.
  intros Hok Hf.
  rewrite map_app, map_cons, errs_app, errs_cons.
  rewrite (ok_errs_nil (map (field_outcome d) before)).
  - rewrite (ok_errs_nil (map (field_outcome d) after)).
    + rewrite Hf. simpl. apply app_nil_r.
    + intros o Ho. apply in_map_iff in Ho. destruct Ho as [g [<- Hg]].
      apply violated_false, Hok, in_or_app. right. exact Hg.
  - intros o Ho. apply in_map_iff in Ho. destruct Ho as [g [<- Hg]].
    apply violated_false, Hok, in_or_app. left. exact Hg.
Qed.

Lemma model_single cls before f after d es :
  (forall g, In g (before ++ after) -> violated d g = false) ->
  snd (field_outcome d f) = ValidationError es ->
  validate (t_model cls (before ++ f :: after)) (RDict d) =
  ValidationError (map (with_outer_location (LField (lookup_key f))) es).
Proof.
  intros Hok Hf. rewrite validate_model_eq, (errs_single d before f after es Hok Hf).
  pose proof (field_outcome_nonempty d f) as Hne. rewrite Hf in Hne.
  destruct es; [contradiction Hne; reflexivity | reflexivity].
Qed.

Lemma items_single v r rest es vs :
  v r = ValidationError es -> es <> [] ->
  Forall2 (fun r y => v r = Ok y) rest vs ->
  validate_items v (r :: rest) =
  ValidationError (map (with_outer_location (LIndex 0)) es).
Proof.
  intros Hr Hne Hrest. rewrite validate_items_eq, item_outcomes_cons, errs_cons.
  destruct (items_intro v rest 1 vs Hrest) as [-> _].
  simpl. rewrite Hr, app_nil_r.
  destruct es; [contradiction | reflexivity].
Qed.

(** A record is built exactly when one given field is not in violation,
    once the fields of other names are known not to be. *)
Lemma model_ok_but_one cls fields d n :
  (forall g, In g fields -> fname g <> n -> violated d g = false) ->
  (is_ok (validate (t_model cls fields) (RDict d)) = true <->
   forall f, In f fields -> fname f = n -> violated d f = false).
Proof.
  intros Hothers. rewrite model_ok_iff. split.
  - intros H f Hf _. apply H, Hf.
  - intros H f Hf. destruct (string_dec (fname f) n) as [E|E].
    + apply H; assumption.
    + apply Hothers; assumption.
Qed.

Lemma unique_name fields f g :
  NoDup (map (@fname ty) fields) ->
  In f fields -> In g fields -> fname g = fname f -> g = f.
Proof.
  induction fields as [|h fields IH]; intros Hnd Hf Hg E; [contradiction|].
  inversion Hnd as [|? ? Hnotin Hnd']; subst.
  destruct Hf as [->|Hf], Hg as [->|Hg].
  - reflexivity.
  - exfalso. apply Hnotin. rewrite <- E. apply in_map. exact Hg.
  - exfalso. apply Hnotin. rewrite E. apply in_map. exact Hf.
  - apply IH; assumption.
Qed.

Lemma model_ok_field cls fields d f :
  distinct (map (@fname ty) fields) = true ->
  In f fields ->
  (forall g, In g fields -> fname g <> fname f -> violated d g = false) ->
  (is_ok (validate (t_model cls fields) (RDict d)) = true <-> violated d f = false).
Proof.
  intros Hd Hf Hothers. apply distinct_NoDup in Hd.
  rewrite (model_ok_but_one cls fields d (fname f) Hothers). split.
  - intros H. apply H; [exact Hf | reflexivity].
  - intros H g Hg E. rewrite (unique_name fields f g Hd Hf Hg E). exact H.
Qed.

(** A record class whose fields are either fields of another class, seen
    through the same bindings, or in order by themselves: it is built
    wherever the other is, and agrees with it on the fields they share. *)
Lemma inherit_model cls fields d x cls' fields' d' :
  validate (t_model cls fields) (RDict d) = Ok x ->
  distinct (map (@fname ty) fields) = true ->
  distinct (map (@fname ty) fields') = true ->
  (forall f, In f fields' ->
     (In f fields /\ dict_get (lookup_key f) d' = dict_get (lookup_key f) d)
     \/ violated d' f = false) ->
  exists y,
    validate (t_model cls' fields') (RDict d') = Ok y /\
    forall f, In f fields' -> In f fields ->
              dict_get (lookup_key f) d' = dict_get (lookup_key f) d ->
              getattr y (fname f) = getattr x (fname f).
Proof.
  intros Hx Hd Hd' Hf.
  apply distinct_NoDup in Hd. apply distinct_NoDup in Hd'.
  pose proof (model_ok_fields _ _ _ _ Hx) as Hok.
  assert (forall f, In f fields' -> violated d' f = false) as Hok'.
  { intros f Hin. destruct (Hf f Hin) as [[Hin0 Hget]|H]; [|exact H].
    rewrite (violated_ext d' d f Hget). apply Hok, Hin0. }
  eexists. split; [apply model_ok_intro, Hok'|].
  intros f Hin' Hin Hget.
  rewrite (getattr_validated _ _ _ _ (fname f) (model_ok_intro cls' fields' d' Hok')).
  rewrite (getattr_validated _ _ _ _ (fname f) Hx).
  rewrite (find_named_self fields' f Hd' Hin'), (find_named_self fields f Hd Hin).
  unfold field_value. rewrite (field_outcome_ext d' d f Hget). reflexivity.
Qed.

(** A list field declared with the [list] factory and absent from the
    raw mapping is the empty list, and stands in no one's way. *)
Lemma absent_list_field cls fields d f :
  distinct (map (@fname ty) fields) = true ->
  In f fields ->
  fdefault f = default_factory_list ->
  dict_get (lookup_key f) d = None ->
  snd (field_outcome d f) = Ok (fname f, VList []) /\
  (forall x, validate (t_model cls fields) (RDict d) = Ok x ->
             getattr x (fname f) = Some (VList [])) /\
  ((forall g, In g fields -> fname g <> fname f -> violated d g = false) ->
   exists x, validate (t_model cls fields) (RDict d) = Ok x /\
             getattr x (fname f) = Some (VList [])).
Proof.
  intros Hd Hin Hdef Hget.
  assert (snd (field_outcome d f) = Ok (fname f, VList [])) as Hout.
  { rewrite (field_outcome_absent d f Hget), Hdef. reflexivity. }
  assert (forall x, validate (t_model cls fields) (RDict d) = Ok x ->
                    getattr x (fname f) = Some (VList [])) as Hattr.
  { intros x Hx. rewrite (getattr_validated _ _ _ _ (fname f) Hx).
    rewrite (find_named_self fields f (distinct_NoDup _ Hd) Hin).
    unfold field_value. rewrite Hout. reflexivity. }
  split; [exact Hout|]. split; [exact Hattr|].
  intros Hothers.
  assert (is_ok (validate (t_model cls fields) (RDict d)) = true) as Hok.
  { apply (model_ok_field cls fields d f Hd Hin Hothers).
    unfold violated. rewrite Hout. reflexivity. }
  destruct (validate (t_model cls fields) (RDict d)) as [x|] eqn:E; [|discriminate].
  exists x. split; [reflexivity | apply Hattr; reflexivity].
Qed.

(** A required field that is absent is reported missing. *)
Lemma absent_required_field cls fields d f :
  In f fields ->
  fdefault f = required ->
  dict_get (lookup_key f) d = None ->
  exists es, validate (t_model cls fields) (RDict d) = ValidationError es /\
             In (LineError [LField (lookup_key f)] missing) es.
Proof.
  intros Hin Hdef Hget. apply errors_of_In.
  apply (model_reports_field cls fields d f [LineError [] missing] (LineError [] missing)
           Hin); [|left; reflexivity].
  rewrite (field_outcome_absent d f Hget), Hdef. reflexivity.
Qed.

(** *** One line error per failing place *)

Lemma length_errs {A : Type} (os : list (loc_item * result A)) :
  List.length (errs os) = list_sum (map (fun o => List.length (errors_of (snd o))) os).
Proof.
  induction os as [|[l o] os IH]; [reflexivity|].
  rewrite errs_cons, length_app, IH. simpl. f_equal.
  destruct o; simpl; [reflexivity | apply length_map].
Qed.

Lemma length_errs_items v : forall l i,
  List.length (errs (item_outcomes v i l))
  = list_sum (map (fun r => List.length (errors_of (v r))) l).
Proof.
  induction l as [|r l IH]; intros i; [reflexivity|].
  rewrite item_outcomes_cons, errs_cons, length_app, IH. simpl. f_equal.
  destruct (v r); simpl; [reflexivity | apply length_map].
Qed.

Lemma check_length_one c s :
  List.length (errors_of (check_length c s)) = if is_ok (check_length c s) then 0 else 1.
Proof.
  unfold check_length, fail.
  destruct (match min_length c with Some _ => _ | None => _ end); [reflexivity|].
  destruct (match max_length c with Some _ => _ | None => _ end); reflexivity.
Qed.

Lemma check_int_one c z :
  List.length (errors_of (check_int c z)) = if is_ok (check_int c z) then 0 else 1.
Proof.
  unfold check_int, fail.
  destruct (match le c with Some _ => _ | None => _ end); [reflexivity|].
  destruct (match ge c with Some _ => _ | None => _ end); reflexivity.
Qed.

Lemma check_float_one c f :
  List.length (errors_of (check_float c f)) = if is_ok (check_float c f) then 0 else 1.
Proof.
  unfold check_float, fail.
  destruct (match le c with Some _ => _ | None => _ end); [reflexivity|].
  destruct (match ge c with Some _ => _ | None => _ end); reflexivity.
Qed.

Lemma int_of_raw_one r :
  (exists z, int_of_raw r = Ok z) \/ (exists t, int_of_raw r = fail t).
Proof.
  destruct r; simpl; try (right; eexists; reflexivity);
    try (left; eexists; reflexivity).
  - apply float_as_int_one.
  - destruct (str_as_int s); [left | right]; eexists; reflexivity.
Qed.

Lemma float_of_raw_one r :
  (exists f, float_of_raw r = Ok f) \/ (exists t, float_of_raw r = fail t).
Proof.
  destruct r; simpl; try (right; eexists; reflexivity);
    try (left; eexists; reflexivity).
  - destruct (float_of_int z); [left | right]; eexists; reflexivity.
  - destruct (str_as_float s); [left | right]; eexists; reflexivity.
Qed.

(** The report of a validation has one line error for each failing
    place, no more and no fewer. *)
Lemma report_counts_violations t :
  forall r, List.length (errors_of (validate t r)) = violations t r.
Proof.
  induction t using ty_nested_ind; intros r.
  - simpl. destruct r; try reflexivity. apply check_length_one.
  - simpl. unfold validate_int.
    destruct (int_of_raw_one r) as [[z ->]|[k ->]]; [apply check_int_one | reflexivity].
  - simpl. unfold validate_float.
    destruct (float_of_raw_one r) as [[f ->]|[k ->]]; [apply check_float_one | reflexivity].
  - simpl. destruct (validate_datetime_one r) as [[d ->]|[k ->]]; reflexivity.
  - simpl. destruct (validate_date_one r) as [[d ->]|[k ->]]; reflexivity.
  - simpl. unfold validate_enum. destruct r; try reflexivity.
    destruct (find _ (members e)); reflexivity.
  - simpl. destruct r; try apply IHt. reflexivity.
  - destruct r; try reflexivity. simpl.
    unfold validate_items. rewrite errors_of_finish.
    change (map (fun ir => (LIndex (fst ir), validate t (snd ir))) (enumerate l))
      with (item_outcomes (validate t) 0 l).
    rewrite length_errs_items. f_equal. apply map_ext. exact IHt.
  - destruct r; try reflexivity.
    rewrite errors_of_model, length_errs, map_map.
    simpl. f_equal. apply map_ext_in. intros f Hf.
    rewrite Forall_forall in H. specialize (H f Hf).
    unfold field_outcome, validate_field. simpl.
    destruct (dict_get (lookup_key f) d) as [r'|].
    + rewrite <- (H r'). destruct (validate (fty f) r'); reflexivity.
    + destruct (default_value (fdefault f)); reflexivity.
Qed.

(** *** Keys that no field looks up *)

Lemma model_extra_key cls fields d k v :
  (forall f, In f fields -> lookup_key f <> k) ->
  validate (t_model cls fields) (RDict ((k, v) :: d)) =
  validate (t_model cls fields) (RDict d).
Proof.
  intros H. apply model_ext. intros f Hf.
  apply dict_get_cons_ne, H, Hf.
Qed.

(** *** Members of an enumeration *)

Lemma find_member_In ms s :
  In s (map mvalue ms) ->
  exists m, find (fun m => String.eqb (mvalue m) s) ms = Some m /\
            mvalue m = s /\ In m ms.
Proof.
  induction ms as [|m ms IH]; simpl; [contradiction|].
  intros H. destruct (String.eqb_spec (mvalue m) s) as [E|E].
  - exists m. repeat split; [exact E | left; reflexivity].
  - destruct H as [H|H]; [contradiction|].
    destruct (IH H) as [m' [Hf [Hv Hin]]].
    exists m'. repeat split; [exact Hf | exact Hv | right; exact Hin].
Qed.

Lemma find_member_not_In ms s :
  ~ In s (map mvalue ms) ->
  find (fun m => String.eqb (mvalue m) s) ms = None.
Proof.
  induction ms as [|m ms IH]; simpl; [reflexivity|].
  intros H. destruct (String.eqb_spec (mvalue m) s) as [E|E].
  - exfalso. apply H. left. exact E.
  - apply IH. intros Hin. apply H. right. exact Hin.
Qed.

Lemma validate_enum_cases e s :
  (In s (map mvalue (members e)) /\
   exists m, In m (members e) /\ mvalue m = s /\
             validate (t_enum e) (RStr s) = Ok (VEnum (ename e) m))
  \/ (~ In s (map mvalue (members e)) /\ validate (t_enum e) (RStr s) = fail enum).
Proof.
  destruct (in_dec string_dec s (map mvalue (members e))) as [Hin|Hnot].
  - left. split; [exact Hin|].
    destruct (find_member_In (members e) s Hin) as [m [Hf [Hv Hm]]].
    exists m. repeat split; try assumption. simpl. unfold validate_enum.
    rewrite Hf. reflexivity.
  - right. split; [exact Hnot|]. simpl. unfold validate_enum.
    rewrite (find_member_not_In (members e) s Hnot). reflexivity.
Qed.

Lemma validate_enum_ok_iff e s :
  is_ok (validate (t_enum e) (RStr s)) = true <-> In s (map mvalue (members e)).
Proof.
  destruct (validate_enum_cases e s) as [[Hin [m [_ [_ ->]]]]|[Hnot ->]]; simpl.
  - tauto.
  - split; [discriminate | contradiction].
Qed.

(** *** Length and range checks *)



Lemma check_float_between a b f :
  check_float (NumField (Some a) (Some b)) f =
  if negb (SFleb f (float_bound b)) then fail less_than_equal
  else if negb (SFleb (float_bound a) f) then fail greater_than_equal
  else Ok (VFloat f).
Proof. reflexivity. Qed.

(** In the order of binary64, below is the negation of at-or-above only
    for numbers: NaN is neither. *)
Lemma SFltb_not_SFleb a b : SFltb a b = true -> SFleb b a = false.
Proof.
  unfold SFltb, SFleb.
  destruct a as [sa|sa| |sa ma ea], b as [sb|sb| |sb mb eb]; simpl;
    try discriminate; try reflexivity;
    try (destruct sa; discriminate); try (destruct sb; discriminate);
    try (destruct sa, sb; discriminate || reflexivity).
  destruct sa, sb; try discriminate; try reflexivity;
    rewrite (Z.compare_antisym ea eb);
    destruct (ea ?= eb)%Z; simpl; try discriminate; try reflexivity;
    rewrite (ZC4 mb ma);
    destruct (Pos.compare_cont Eq ma mb); simpl; discriminate || reflexivity.
Qed.

Lemma SFltb_zero_SFleb_pos f m e :
  SFltb f (S754_zero false) = true -> SFleb f (S754_finite false m e) = true.
Proof.
  unfold SFltb, SFleb. destruct f as [s|s| |s m' e']; simpl; try discriminate;
    destruct s; try discriminate; reflexivity.
Qed.

(** *** The order of binary64 against 0 and 5 *)

Lemma digits2_size m : digits2_pos m = Pos.size m.
Proof. induction m; simpl; congruence. Qed.

Lemma size_bounds m :
  (2 ^ (Z.pos (Pos.size m) - 1) <= Z.pos m < 2 ^ Z.pos (Pos.size m))%Z.
Proof.
  pose proof (Pos.size_gt m) as Hgt. pose proof (Pos.size_le m) as Hle.
  apply Pos2Z.pos_lt_pos in Hgt. apply Pos2Z.pos_le_pos in Hle.
  rewrite Pos2Z.inj_pow in Hgt, Hle.
  split; [|exact Hgt].
  assert (2 ^ Z.pos (Pos.size m) = 2 * 2 ^ (Z.pos (Pos.size m) - 1))%Z as E.
  { rewrite <- Z.pow_succ_r by lia. f_equal. lia. }
  rewrite E in Hle. change (Z.pos m~0) with (2 * Z.pos m)%Z in Hle. lia.
Qed.

(** On the floats of binary64 the comparisons the engine makes with the
    bounds 0 and 5 are the comparisons of the exact values. *)
Lemma SFleb_zero_exact f : SFleb Samples.f_0 f = int_leb_float 0 f.
Proof.
  unfold SFleb, Samples.f_0. destruct f as [s|s| |s m e]; simpl; try reflexivity.
  - destruct s; reflexivity.
  - destruct s.
    + destruct (0 <=? e)%Z eqn:E.
      * symmetry. apply Z.leb_gt. apply Z.leb_le in E.
        pose proof (Z.pow_pos_nonneg 2 e). nia.
      * reflexivity.
    + destruct (0 <=? e)%Z eqn:E.
      * symmetry. apply Z.leb_le. apply Z.leb_le in E.
        pose proof (Z.pow_pos_nonneg 2 e). nia.
      * reflexivity.
Qed.

Lemma SFleb_five_exact f :
  valid_binary prec emax f = true -> SFleb f Samples.f_5 = float_leb_int f 5.
Proof.
  destruct f as [s|s| |s m e]; intros Hb.
  - reflexivity.
  - destruct s; reflexivity.
  - reflexivity.
  - destruct s.
    + unfold float_leb_int.
      change (SFleb (S754_finite true m e) Samples.f_5) with true.
      destruct (0 <=? e)%Z eqn:E.
      * symmetry. apply Z.leb_le. apply Z.leb_le in E.
        pose proof (Z.pow_pos_nonneg 2 e). nia.
      * symmetry. apply Z.leb_le. apply Z.leb_gt in E.
        pose proof (Z.pow_pos_nonneg 2 (- e)). nia.
    + cbv [valid_binary bounded canonical_mantissa fexp SpecFloat.emin] in Hb.
      apply andb_prop in Hb. destruct Hb as [Hc He].
      apply Z.eqb_eq in Hc. apply Z.leb_le in He.
      rewrite digits2_size in Hc. unfold prec, emax in *.
      pose proof (size_bounds m) as [Hlo Hhi].
      set (d := Z.pos (Pos.size m)) in *.
      unfold float_leb_int.
      unfold SFleb, SFcompare, Samples.f_5.
      destruct (Z.compare_spec e (-50)) as [Heq|Hlt|Hgt].
      * subst e. rewrite Pos.compare_cont_spec.
        change ((0 <=? -50)%Z) with false. cbv iota.
        change (5 * 2 ^ (- (-50)))%Z with (Z.pos 5629499534213120).
        unfold Z.leb. simpl Z.compare.
        destruct (m ?= 5629499534213120)%positive; reflexivity.
      * assert ((0 <=? e)%Z = false) as -> by (apply Z.leb_gt; lia).
        symmetry. apply Z.leb_le.
        assert (d <= 53)%Z by lia.
        assert (2 ^ d <= 2 ^ 53)%Z by (apply Z.pow_le_mono_r; lia).
        assert (2 ^ 51 <= 2 ^ (- e))%Z by (apply Z.pow_le_mono_r; lia).
        change (2 ^ 53)%Z with 9007199254740992%Z in *.
        change (2 ^ 51)%Z with 2251799813685248%Z in *. lia.
      * assert (d = 53)%Z as Hd by lia. rewrite Hd in Hlo.
        change (2 ^ (53 - 1))%Z with 4503599627370496%Z in Hlo.
        destruct (0 <=? e)%Z eqn:E.
        -- symmetry. apply Z.leb_gt. apply Z.leb_le in E.
           pose proof (Z.pow_pos_nonneg 2 e). nia.
        -- symmetry. apply Z.leb_gt. apply Z.leb_gt in E.
           assert (2 ^ (- e) <= 2 ^ 49)%Z by (apply Z.pow_le_mono_r; lia).
           change (2 ^ 49)%Z with 562949953421312%Z in *. lia.
Qed.

(** *** The classes of the source *)

(** The list fields of the source: all but [items] of [Order] and of
    [RecentOrder] are declared with the [list] factory. *)
Lemma list_fields model f :
  In model record_types -> In f (fields_of model) -> is_list (fty f) = true ->
  distinct (map (@fname ty) (fields_of model)) = true /\
  ((fname f <> "items" /\ fdefault f = default_factory_list)
   \/ (fname f = "items" /\ lookup_key f = "items" /\ fdefault f = required /\
       (model = Order \/ model = RecentOrder))).
Proof.
  intros Hm Hf Hl. split.
  - clear Hf Hl. each_member Hm; reflexivity.
  - each_member Hm; each_member Hf; try discriminate Hl;
      solve [ left; split; [discriminate | reflexivity]
            | right; repeat split; tauto ].
Qed.

Lemma record_types_unambiguous model :
  In model record_types -> unambiguous model = true.
Proof. intros H. each_member H; reflexivity. Qed.

Lemma record_types_models model :
  In model record_types ->
  well_formed model = true /\ exists cls fields, model = t_model cls fields.
Proof.
  intros H. simpl in H.
  repeat (destruct H as [<-|H];
          [split; [vm_compute; reflexivity | eexists; eexists; reflexivity]|]).
  contradiction.
Qed.

End Facts.

(** ** The claims *)

Section Claims.
Context {lax : Lax}.
Local Open Scope string_scope.
Local Open Scope list_scope.

(** C2.  Round trip.  A valid instance of a record class is a value
    that inhabits it: a record of the class with one attribute per
    declared field, each within its annotation.  For every class of the
    source and every such instance [x], serializing [x] gives a mapping
    with one key per field, the lookup key (the alias where one is
    declared), in declaration order, and the construction entry point
    applied to that mapping succeeds with [x] itself.  Every instance
    that the construction entry point builds is rebuilt from its
    serialization in the same way. *)
Theorem roundtrip_record_types model :
  In model record_types ->
  (forall x, conforms model x = true ->
     exists d, model_dump model x = RDict d /\
               map fst d = map (@lookup_key ty) (fields_of model) /\
               model_validate model d = Ok x) /\
  (forall d x, model_validate model d = Ok x ->
     exists d', model_dump model x = RDict d' /\ model_validate model d' = Ok x).
Proof.
  intros Hin. destruct (record_types_models model Hin) as [Hwf [cls [fields E]]].
  pose proof (record_types_unambiguous model Hin) as Hun. subst model.
  unfold model_validate. split.
  - intros x Hx. pose proof (conforming_roundtrip _ Hwf Hun x Hx) as Hrt.
    destruct x as [| | | | | | | |cls' attrs]; try discriminate Hx.
    destruct (conforming_dump_keys cls fields cls' attrs Hx) as [d [Hd Hk]].
    exists d. split; [exact Hd|]. split; [exact Hk|].
    rewrite <- Hd. exact Hrt.
  - intros d x Hx. pose proof (roundtrip _ Hwf _ _ Hx) as Hrt.
    rewrite (model_ok_value _ _ _ _ Hx) in *.
    eexists. split; [reflexivity | exact Hrt].
Qed.

(** C4.  Each declared field in violation on a raw mapping leaves at
    least one line error in the report of the construction: with two
    fields in violation the construction fails with two entries or more.
    A field is in violation by its own outcome, which depends on the
    binding of its own key only ([violated_ext]).  Nothing is cut short
    further down either: the report has exactly one line error for each
    failing place, whatever its depth in nested records and lists. *)
Theorem no_short_circuit cls fields d :
  2 <= List.length (filter (violated d) fields) ->
  exists es,
    model_validate (t_model cls fields) d = ValidationError es /\
    2 <= List.length es /\
    List.length (filter (violated d) fields) <= List.length es /\
    List.length es = violations (t_model cls fields) (RDict d).
Proof.
  intros H. unfold model_validate.
  pose proof (report_counts_violations (t_model cls fields) (RDict d)) as Hv.
  rewrite validate_model_eq in *.
  pose proof (errs_count d fields) as Hc.
  destruct (errs (map (field_outcome d) fields)) as [|e es] eqn:E.
  - simpl in Hc. lia.
  - exists (e :: es). split; [reflexivity|]. split; [lia|]. split; [lia | exact Hv].
Qed.

(** C10.  A key that is neither the name nor the alias of a declared
    field is ignored: binding it to any value leaves a successful
    construction successful, with the same instance. *)
Theorem extra_key_ignored model d x k v :
  In model record_types ->
  model_validate model d = Ok x ->
  (forall f, In f (fields_of model) -> fname f <> k /\ lookup_key f <> k) ->
  model_validate model ((k, v) :: d) = Ok x.
Proof.
  intros Hin Hx Hk.
  destruct (record_types_models model Hin) as [_ [cls [fields ->]]].
  unfold model_validate in *. rewrite model_extra_key; [exact Hx|].
  intros f Hf. apply (Hk f Hf).
Qed.

(** C6.  [OrderStatus] and [SpiceLevel] are closed: a raw string is
    taken exactly when it is, character for character, the value of one
    of the members listed; any other string fails with an [enum] error,
    an InvalidEnumValue.  ["delivered"] is a status, ["Delivered"] is
    not. *)
Theorem enums_closed (s : string) :
  (is_ok (validate (t_enum OrderStatus) (RStr s)) = true <->
   In s ["pending"; "preparing"; "out_for_delivery"; "delivered"; "cancelled"]) /\
  (is_ok (validate (t_enum SpiceLevel) (RStr s)) = true <->
   In s ["Mild"; "Medium"; "Hot"]) /\
  (forall e, In e [OrderStatus; SpiceLevel] ->
     (exists m, In m (members e) /\ mvalue m = s /\
                validate (t_enum e) (RStr s) = Ok (VEnum (ename e) m))
     \/ (~ In s (map mvalue (members e)) /\
         validate (t_enum e) (RStr s) = fail enum)) /\
  failure_of enum = InvalidEnumValue /\
  validate (t_enum OrderStatus) (RStr "delivered")
    = Ok (VEnum "OrderStatus" (Member "delivered" "delivered")) /\
  validate (t_enum OrderStatus) (RStr "Delivered") = fail enum /\
  model_validate Order (("status", RStr "Delivered") :: Samples.order)
    = ValidationError [LineError [LField "status"] enum].
Proof.
  split; [|split; [|split; [|split; [|split; [|split]]]]].
  - rewrite validate_enum_ok_iff. simpl. tauto.
  - rewrite validate_enum_ok_iff. simpl. tauto.
  - intros e _. destruct (validate_enum_cases e s) as [[_ H]|H]; [left | right]; exact H.
  - reflexivity.
  - reflexivity.
  - reflexivity.
  - vm_compute. reflexivity.
Qed.


(** C8.  The [rating] of a [Restaurant] and of a [DeliveryPartner] is taken
    on the closed interval from 0 to 5.  Let the raw rating read as the
    float [f] (a float is itself, an integer is converted).  With the
    other fields in order the record is built exactly when
    0 <= f <= 5 in the order of binary64, both ends included; a rating
    below 0 is reported as a [greater_than_equal] failure and one above
    5 as a [less_than_equal] failure, both constraint violations, at
    [rating].  On a float of binary64 that order is the order of the
    exact values: the record is built exactly when 0 <= m * 2^e <= 5. *)
Theorem rating_bounds_inclusive model d r f :
  In model [Restaurant; DeliveryPartner] ->
  dict_get "rating" d = Some r ->
  float_of_raw r = Ok f ->
  (forall g, In g (fields_of model) -> fname g <> "rating" -> violated d g = false) ->
  (is_ok (model_validate model d) = true <->
   SFleb Samples.f_0 f = true /\ SFleb f Samples.f_5 = true) /\
  (SFltb f Samples.f_0 = true ->
   In (LineError [LField "rating"] greater_than_equal)
      (errors_of (model_validate model d))) /\
  (SFltb Samples.f_5 f = true ->
   In (LineError [LField "rating"] less_than_equal)
      (errors_of (model_validate model d))) /\
  failure_of greater_than_equal = ConstraintViolation /\
  failure_of less_than_equal = ConstraintViolation /\
  (valid_binary prec emax f = true ->
   (is_ok (model_validate model d) = true <->
    int_leb_float 0 f = true /\ float_leb_int f 5 = true)).
Proof.
  intros Hmodel Hget Hconv Hothers.
  set (rating := plain "rating" (float_between 0 5)).
  assert (snd (field_outcome d rating) =
          if negb (SFleb f Samples.f_5) then fail less_than_equal
          else if negb (SFleb Samples.f_0 f) then fail greater_than_equal
          else Ok ("rating", VFloat f)) as Hout.
  { rewrite (field_outcome_present d rating _ Hget). simpl.
    unfold validate_float. rewrite Hconv, check_float_between.
    change (float_bound 5) with Samples.f_5.
    change (float_bound 0) with Samples.f_0.
    destruct (SFleb f Samples.f_5); [|reflexivity].
    destruct (SFleb Samples.f_0 f); reflexivity. }
  assert (exists cls fields,
            model = t_model cls fields /\ In rating fields /\
            distinct (map (@fname ty) fields) = true) as [cls [fields [-> [Hin Hd]]]].
  { destruct Hmodel as [<-|[<-|[]]]; eexists; eexists;
      (split; [reflexivity | split; [simpl; tauto | reflexivity]]). }
  assert (is_ok (model_validate (t_model cls fields) d) = true <->
          SFleb Samples.f_0 f = true /\ SFleb f Samples.f_5 = true) as Hiff.
  { unfold model_validate.
    rewrite (model_ok_field cls fields d rating Hd Hin Hothers).
    unfold violated. rewrite Hout.
    destruct (SFleb f Samples.f_5); simpl; [|split; [discriminate | intros [_ ?]; discriminate]].
    destruct (SFleb Samples.f_0 f); simpl; [tauto | split; [discriminate | intros [? _]; discriminate]]. }
  split; [exact Hiff|].
  split; [|split; [|split; [|split]]]; try reflexivity;
    [| |intros Hvalid; rewrite Hiff, SFleb_zero_exact, (SFleb_five_exact f Hvalid);
        tauto].
  - intros Hlt. unfold Samples.f_0, Samples.f_5 in *.
    rewrite (SFltb_zero_SFleb_pos f _ _ Hlt), (SFltb_not_SFleb _ _ Hlt) in Hout.
    apply (model_reports_field cls fields d rating _ (LineError [] greater_than_equal)
             Hin Hout). left. reflexivity.
  - intros Hgt. rewrite (SFltb_not_SFleb _ _ Hgt) in Hout.
    apply (model_reports_field cls fields d rating _ (LineError [] less_than_equal)
             Hin Hout). left. reflexivity.
Qed.


(** C3 (amended).  A list field of the source that is declared with the
    [list] factory and left out of the raw mapping takes the empty list:
    its absence is no failure, the built record holds the empty list
    there, and with the other fields in order the record is built.  This
    covers every list field but [items] of [Order] and of [RecentOrder],
    which is required: leaving it out fails with a [missing] line error
    at [items]. *)
Theorem absent_sequence_default model f d :
  In model record_types ->
  In f (fields_of model) ->
  is_list (fty f) = true ->
  dict_get (lookup_key f) d = None ->
  (fname f <> "items" ->
     fdefault f = default_factory_list /\
     snd (field_outcome d f) = Ok (fname f, VList []) /\
     (forall x, model_validate model d = Ok x ->
                getattr x (fname f) = Some (VList [])) /\
     ((forall g, In g (fields_of model) -> fname g <> fname f -> violated d g = false) ->
      exists x, model_validate model d = Ok x /\
                getattr x (fname f) = Some (VList []))) /\
  (fname f = "items" ->
     (model = Order \/ model = RecentOrder) /\
     fdefault f = required /\
     exists es, model_validate model d = ValidationError es /\
                In (LineError [LField "items"] missing) es /\
                failure_of missing = MissingField).
Proof.
  intros Hm Hf Hl Hget.
  destruct (list_fields model f Hm Hf Hl) as [Hd [[Hn Hdef]|[Hn [Hkey [Hdef Hor]]]]];
    destruct (record_types_models model Hm) as [_ [cls [fields ->]]];
    simpl in Hf, Hd; unfold model_validate; (split; [intros Hn'|intros Hn']);
    try contradiction.
  - split; [exact Hdef|]. apply absent_list_field; assumption.
  - split; [exact Hor|]. split; [exact Hdef|].
    destruct (absent_required_field cls fields d f Hf Hdef Hget) as [es [He Hi]].
    exists es. rewrite Hkey in Hi. repeat split; assumption.
Qed.

(** C5.  Take a raw mapping from which an [Order] is built and whose
    [items] start with a mapping, and put [-1] (the integer or the float)
    as the [price] of that first item.  The item alone fails, with a
    [greater_than_equal] line error at [price]; the construction of the
    [Order] fails as a whole, and its report is that one line error,
    a constraint violation, lifted to the location [items], [0],
    [price]. *)
Theorem negative_price_fails d o e rest p :
  model_validate Order d = Ok o ->
  dict_get "items" d = Some (RList (RDict e :: rest)) ->
  p = RInt (-1) \/ p = RFloat Samples.f_minus_1 ->
  validate Item (RDict (("price", p) :: e))
    = ValidationError [LineError [LField "price"] greater_than_equal] /\
  model_validate Order (("items", RList (RDict (("price", p) :: e) :: rest)) :: d)
    = ValidationError
        [with_outer_location (LField "items")
           (with_outer_location (LIndex 0)
              (LineError [LField "price"] greater_than_equal))] /\
  with_outer_location (LField "items")
    (with_outer_location (LIndex 0) (LineError [LField "price"] greater_than_equal))
    = LineError [LField "items"; LIndex 0; LField "price"] greater_than_equal /\
  failure_of greater_than_equal = ConstraintViolation.
Proof.
  intros Ho Hitems Hp. unfold model_validate in *.
  pose proof (model_ok_fields _ _ _ _ Ho) as Hok.
  (* the items of [d] validate one by one *)
  set (items := plain "items" (t_list Item)).
  assert (In items (fields_of Order)) as Hin by (simpl; tauto).
  pose proof (Hok items Hin) as Hitems_ok. apply violated_false in Hitems_ok.
  rewrite (field_outcome_present d items _ Hitems) in Hitems_ok.
  destruct (validate (fty items) (RList (RDict e :: rest))) as [y|] eqn:Hy;
    [clear Hitems_ok | discriminate].
  simpl in Hy.
  destruct (validate_items_ok _ _ _ (validate_nonempty Item) Hy) as [vs [_ Hall]].
  inversion Hall as [|r0 y0 l0 vs0 He Hrest]; subst.
  pose proof (model_ok_fields _ _ _ _ He) as Hok_e.
  (* the item with the new price *)
  set (e' := ("price", p) :: e).
  set (price := plain "price" (float_ge 0)).
  assert (validate Item (RDict e')
          = ValidationError [LineError [LField "price"] greater_than_equal]) as Hitem.
  { change Item with
      (t_model "Item" ([plain "name" str; plain "quantity" (int_ge 1)] ++ price ::
                       [Field "customizations" (t_list str) None default_factory_list])).
    rewrite (model_single "Item" _ price _ e' [LineError [] greater_than_equal]);
      [reflexivity | |].
    - intros g Hg. rewrite (violated_ext e' e g).
      + apply Hok_e. each_member Hg; simpl; tauto.
      + apply dict_get_cons_ne. each_member Hg; discriminate.
    - rewrite (field_outcome_present e' price p (dict_get_cons_eq _ _ _)).
      destruct Hp as [-> | ->]; reflexivity. }
  split; [exact Hitem|]. split; [|split; reflexivity].
  set (d' := ("items", RList (RDict e' :: rest)) :: d).
  change Order with
    (t_model "Order"
       ([aliased "orderId" str "orderId"; aliased "customerId" str "customerId";
         aliased "customerName" str "customerName";
         aliased "orderDate" t_datetime "orderDate";
         plain "status" (t_enum OrderStatus); plain "restaurant" Restaurant]
        ++ items ::
        [plain "pricing" Pricing; plain "payment" Payment;
         plain "deliveryAddress" DeliveryAddress;
         plain "deliveryPartner" DeliveryPartner;
         plain "timeline" Timeline; plain "ratings" Ratings])).
  rewrite (model_single "Order" _ items _ d'
             [with_outer_location (LIndex 0)
                (LineError [LField "price"] greater_than_equal)]);
    [reflexivity | |].
  - intros g Hg. rewrite (violated_ext d' d g).
    + apply Hok. each_member Hg; simpl; tauto.
    + apply dict_get_cons_ne. each_member Hg; discriminate.
  - rewrite (field_outcome_present d' items _ (dict_get_cons_eq _ _ _)).
    simpl fty. change (validate (t_list Item) (RList (RDict e' :: rest)))
      with (validate_items (validate Item) (RDict e' :: rest)).
    rewrite (items_single (validate Item) (RDict e') rest _ _ Hitem ltac:(discriminate) Hrest).
    reflexivity.
Qed.

(** C9.  [RecentOrder] declares the fields of [Order] but [customerId]
    and [customerName], each as [Order] does.  A raw mapping from which
    an [Order] is built, with these two keys deleted, gives a
    [RecentOrder] equal to the [Order] on every field of [RecentOrder];
    a raw mapping from which a [RecentOrder] is built, with the two keys
    bound to any strings, gives an [Order] that holds those strings and
    is equal to the [RecentOrder] on every field they share. *)
Theorem recent_order_parallel d :
  fields_of RecentOrder
    = filter (fun f => negb (existsb (String.eqb (fname f))
                                     ["customerId"; "customerName"]))
             (fields_of Order) /\
  (forall o, model_validate Order d = Ok o ->
     exists r,
       model_validate RecentOrder (dict_without ["customerId"; "customerName"] d) = Ok r /\
       forall f, In f (fields_of RecentOrder) ->
                 getattr r (fname f) = getattr o (fname f)) /\
  (forall r c n, model_validate RecentOrder d = Ok r ->
     exists o,
       model_validate Order (("customerId", RStr c) :: ("customerName", RStr n) :: d)
         = Ok o /\
       getattr o "customerId" = Some (VStr c) /\
       getattr o "customerName" = Some (VStr n) /\
       forall f, In f (fields_of RecentOrder) ->
                 getattr o (fname f) = getattr r (fname f)).
Proof.
  split; [reflexivity|]. split.
  - intros o Ho. unfold model_validate in *.
    set (d' := dict_without ["customerId"; "customerName"] d).
    assert (forall f, In f (fields_of RecentOrder) ->
              In f (fields_of Order) /\
              dict_get (lookup_key f) d' = dict_get (lookup_key f) d) as Hsame.
    { intros f Hf. split.
      - each_member Hf; simpl; tauto.
      - apply dict_get_without. each_member Hf; reflexivity. }
    destruct (inherit_model "Order" (fields_of Order) d o
                "RecentOrder" (fields_of RecentOrder) d' Ho eq_refl eq_refl)
      as [r [Hr Hattrs]].
    { intros f Hf. left. apply Hsame, Hf. }
    exists r. split; [exact Hr|].
    intros f Hf. destruct (Hsame f Hf) as [Hin Hget]. apply Hattrs; assumption.
  - intros r c n Hr. unfold model_validate in *.
    set (d' := ("customerId", RStr c) :: ("customerName", RStr n) :: d).
    assert (forall f, In f (fields_of RecentOrder) ->
              dict_get (lookup_key f) d' = dict_get (lookup_key f) d) as Hsame.
    { intros f Hf. unfold d'. rewrite !dict_get_cons_ne;
        [reflexivity | |]; each_member Hf; discriminate. }
    destruct (inherit_model "RecentOrder" (fields_of RecentOrder) d r
                "Order" (fields_of Order) d' Hr eq_refl eq_refl)
      as [o [Ho Hattrs]].
    { intros f Hf. simpl in Hf.
      destruct Hf as [<-|[<-|[<-|Hf]]];
        [ left; split; [simpl; tauto | apply Hsame; simpl; tauto]
        | right; reflexivity
        | right; reflexivity
        | left; split; [right; exact Hf | apply Hsame; right; exact Hf] ]. }
    exists o. split; [exact Ho|].
    split; [|split].
    + rewrite (getattr_validated _ _ _ _ "customerId" Ho). reflexivity.
    + rewrite (getattr_validated _ _ _ _ "customerName" Ho). reflexivity.
    + intros f Hf. apply Hattrs; [|exact Hf | apply Hsame, Hf].
      each_member Hf; simpl; tauto.
Qed.

End Claims.

(** ** The claims at work on the sample data *)

Section Instances.
Local Open Scope string_scope.
Local Open Scope list_scope.
Import Samples.



(** C2: the payment and the order written out as instances, dumped and
    built again; the order is the one the sample mapping builds. *)
Lemma roundtrip_record_types_witness :
  (model_dump Payment payment_record = RDict payment /\
   @model_validate objects_only Payment payment = Ok payment_record) /\
  (exists d, model_dump Order order_record = RDict d /\
             map fst d = map (@fname ty) (fields_of Order) /\
             @model_validate objects_only Order d = Ok order_record) /\
  @model_validate objects_only Order order = Ok order_record.
Proof.
  split; [|split].
  - destruct (@roundtrip_record_types objects_only Payment) as [H _];
      [simpl; tauto|].
    destruct (H payment_record eq_refl) as [d [Hd [_ Hv]]].
    vm_compute in Hd. injection Hd as <-.
    split; [reflexivity | exact Hv].
  - destruct (@roundtrip_record_types objects_only Order) as [H _];
      [simpl; tauto|].
    destruct (H order_record eq_refl) as [d [Hd [Hk Hv]]].
    exists d. split; [exact Hd|]. split; [exact Hk | exact Hv].
  - vm_compute. reflexivity.
Defined.

(** C3: an [Order] without [items] is not built. *)
Lemma order_without_items_missing :
  dict_get "items" order_without_items = None /\
  @model_validate objects_only Order order_without_items
    = ValidationError [LineError [LField "items"] missing].
Proof. split; vm_compute; reflexivity. Qed.

(** C3: an [Item] without [customizations] is built with none. *)
Lemma absent_sequence_default_witness :
  exists x, @model_validate objects_only Item biryani = Ok x /\
            getattr x "customizations" = Some (VList []).
Proof.
  destruct (@absent_sequence_default objects_only Item
              (Field "customizations" (t_list str) None default_factory_list)
              biryani) as [H _].
  - simpl. tauto.
  - simpl. tauto.
  - reflexivity.
  - reflexivity.
  - destruct H as [_ [_ [_ H]]]; [discriminate|].
    apply H. intros g Hg Hne. each_member Hg; reflexivity.
Defined.

(** C4: an [Item] with a quantity of 0 and a price of -1. *)
Lemma no_short_circuit_witness :
  exists es, @model_validate objects_only Item free_nothing = ValidationError es /\
             2 <= List.length es.
Proof.
  destruct (@no_short_circuit objects_only "Item" (fields_of Item) free_nothing)
    as [es [He [Hlen _]]].
  - vm_compute. apply le_n.
  - exists es. split; [exact He | exact Hlen].
Defined.

(** C5: the first item of the sample order priced at -1. *)
Lemma negative_price_fails_witness :
  @model_validate objects_only Order
    (("items", RList [RDict (("price", RInt (-1)) :: biryani); RDict raita]) :: order)
  = ValidationError
      [LineError [LField "items"; LIndex 0; LField "price"] greater_than_equal].
Proof.
  destruct (@model_validate objects_only Order order) as [o|es] eqn:E;
    [|vm_compute in E; discriminate E].
  destruct (@negative_price_fails objects_only order o biryani [RDict raita] (RInt (-1)))
    as [_ [H _]].
  - exact E.
  - reflexivity.
  - left. reflexivity.
  - exact H.
Defined.


(** C8: 0 and 5 are taken, as floats and as integers; -0.0001 and 5.0001
    are not. *)
Lemma rating_bounds_inclusive_witness :
  is_ok (@model_validate objects_only Restaurant (restaurant_rated (RFloat f_0))) = true /\
  is_ok (@model_validate objects_only DeliveryPartner (partner_rated (RFloat f_5))) = true /\
  is_ok (@model_validate objects_only Restaurant (restaurant_rated (RInt 0))) = true /\
  is_ok (@model_validate objects_only DeliveryPartner (partner_rated (RInt 5))) = true /\
  In (LineError [LField "rating"] greater_than_equal)
     (errors_of (@model_validate objects_only Restaurant
                   (restaurant_rated (RFloat f_minus_0_0001)))) /\
  In (LineError [LField "rating"] less_than_equal)
     (errors_of (@model_validate objects_only DeliveryPartner
                   (partner_rated (RFloat f_5_0001)))).
Proof.
  assert (forall x g, In g (fields_of Restaurant) -> fname g <> "rating" ->
                      @violated objects_only (restaurant_rated x) g = false) as Hr.
  { intros x g Hg Hne. each_member Hg; reflexivity. }
  assert (forall x g, In g (fields_of DeliveryPartner) -> fname g <> "rating" ->
                      @violated objects_only (partner_rated x) g = false) as Hp.
  { intros x g Hg Hne. each_member Hg; reflexivity. }
  pose proof (fun x f E => @rating_bounds_inclusive objects_only Restaurant
                             (restaurant_rated x) x f (or_introl eq_refl) eq_refl
                             E (Hr x))
    as HR.
  pose proof (fun x f E => @rating_bounds_inclusive objects_only DeliveryPartner
                             (partner_rated x) x f (or_intror (or_introl eq_refl))
                             eq_refl E (Hp x))
    as HP.
  split; [|split; [|split; [|split; [|split]]]].
  - apply (proj1 (HR (RFloat f_0) f_0 eq_refl)). split; reflexivity.
  - apply (proj1 (HP (RFloat f_5) f_5 eq_refl)). split; reflexivity.
  - apply (proj1 (HR (RInt 0) f_0 eq_refl)). split; reflexivity.
  - apply (proj1 (HP (RInt 5) f_5 eq_refl)). split; reflexivity.
  - apply (proj1 (proj2 (HR (RFloat f_minus_0_0001) f_minus_0_0001 eq_refl))).
    reflexivity.
  - apply (proj1 (proj2 (proj2 (HP (RFloat f_5_0001) f_5_0001 eq_refl)))).
    reflexivity.
Defined.

(** C9: the sample order without its customer is a recent order. *)
Lemma recent_order_parallel_witness :
  exists r,
    @model_validate objects_only RecentOrder
      (dict_without ["customerId"; "customerName"] order) = Ok r /\
    getattr r "orderId" = Some (VStr "ORD1").
Proof.
  destruct (@model_validate objects_only Order order) as [o|es] eqn:E;
    [|vm_compute in E; discriminate E].
  destruct (@recent_order_parallel objects_only order) as [_ [H _]].
  destruct (H o E) as [r [Hr Hattrs]].
  exists r. split; [exact Hr|].
  transitivity (getattr o "orderId").
  - apply (Hattrs (aliased "orderId" str "orderId")). simpl. tauto.
  - rewrite (getattr_validated _ _ _ _ "orderId" E). reflexivity.
Defined.

(** C10: the sample order with a key no field looks up. *)
Lemma extra_key_ignored_witness :
  exists o,
    @model_validate objects_only Order order = Ok o /\
    @model_validate objects_only Order (("couponCode", RStr "FREE50") :: order) = Ok o.
Proof.
  destruct (@model_validate objects_only Order order) as [o|es] eqn:E;
    [|vm_compute in E; discriminate E].
  exists o. split; [reflexivity|].
  apply (@extra_key_ignored objects_only Order order o "couponCode" (RStr "FREE50")).
  - simpl. tauto.
  - exact E.
  - intros f Hf. each_member Hf; split; discriminate.
Defined.

End Instances.

(** ** Further facts about the classes *)

Section Invariants.
Context {lax : Lax}.
Local Open Scope string_scope.
Local Open Scope list_scope.

Lemma same_names_refl l : same_names l l = true.
Proof.
  induction l as [|x l IH]; [reflexivity|].
  simpl. rewrite String.eqb_refl. exact IH.
Qed.

Lemma member_eqb_refl m : member_eqb m m = true.
Proof. unfold member_eqb. rewrite !String.eqb_refl. reflexivity. Qed.

Lemma attrs_names d fields :
  (forall f, In f fields -> violated d f = false) ->
  map fst (oks (map (field_outcome d) fields)) = map (@fname ty) fields.
Proof.
  induction fields as [|f fields IH]; intros H; [reflexivity|].
  rewrite map_cons, oks_cons.
  destruct (field_value_outcome d f (H f (or_introl eq_refl))) as [x [_ ->]].
  simpl. f_equal. apply IH. intros g Hg. apply H. right. exact Hg.
Qed.

Lemma check_length_within c s v : check_length c s = Ok v -> within_length c s = true.
Proof.
  unfold check_length, within_length, fail.
  destruct (min_length c) as [n|], (max_length c) as [k|];
    repeat match goal with
           | |- context [(?a <? ?b)%nat] => destruct (Nat.ltb_spec a b)
           end; try discriminate; intros _;
    apply andb_true_intro; split; try reflexivity; apply Nat.leb_le; lia.
Qed.

Lemma check_int_within c z v : check_int c z = Ok v -> within_int c z = true.
Proof.
  unfold check_int, within_int, fail.
  destruct (ge c) as [a|], (le c) as [b|];
    repeat match goal with
           | |- context [(?a <=? ?b)%Z] => destruct (Z.leb_spec a b)
           end; simpl; try discriminate; reflexivity.
Qed.

Lemma check_float_within c f v : check_float c f = Ok v -> within_float c f = true.
Proof.
  unfold check_float, within_float, fail, float_bound.
  destruct (ge c) as [a|], (le c) as [b|];
    repeat match goal with
           | |- context [SFleb ?a ?b] => destruct (SFleb a b)
           end; simpl; try discriminate; reflexivity.
Qed.

Lemma default_conforms f x :
  default_fits f = true ->
  default_value (fdefault f) = Some x ->
  conforms (fty f) x = true.
Proof.
  unfold default_fits. destruct (fdefault f); simpl; intros Hfit Hx.
  - discriminate.
  - injection Hx as <-. destruct (fty f); try discriminate. reflexivity.
  - injection Hx as <-. destruct (fty f); try discriminate. reflexivity.
Qed.

Lemma field_value_conforms d f x :
  default_fits f = true ->
  (forall r v, validate (fty f) r = Ok v -> conforms (fty f) v = true) ->
  field_value d f = Some x ->
  conforms (fty f) x = true.
Proof.
  intros Hfit IH. unfold field_value, field_outcome, validate_field. simpl.
  destruct (dict_get (lookup_key f) d) as [r|].
  - destruct (validate (fty f) r) as [y|] eqn:E; [|discriminate].
    simpl. intros H. injection H as <-. apply (IH r), E.
  - destruct (default_value (fdefault f)) as [y|] eqn:E; [|discriminate].
    simpl. intros H. injection H as <-. apply default_conforms; assumption.
Qed.

(** Whatever a validator of a well-formed annotation returns inhabits
    the annotation. *)
Lemma validate_conforms t :
  well_formed t = true ->
  forall r v, validate t r = Ok v -> conforms t v = true.
Proof.
  induction t using ty_nested_ind; intros Hwf r v Hv; simpl in Hv.
  - destruct (validate_str_ok c r v Hv) as [s [_ [-> Hc]]].
    apply (check_length_within c s _ Hc).
  - destruct (validate_int_ok c r v Hv) as [z [-> Hc]].
    apply (check_int_within c z _ Hc).
  - destruct (validate_float_ok c r v Hv) as [f [-> Hc]].
    apply (check_float_within c f _ Hc).
  - destruct (validate_datetime_ok r v Hv) as [d ->]. reflexivity.
  - destruct (validate_date_ok r v Hv) as [d ->]. reflexivity.
  - destruct (validate_enum_ok e r v Hv) as [s [m [_ [-> Hfind]]]].
    simpl. rewrite String.eqb_refl. simpl.
    apply existsb_exists. exists m. split; [|apply member_eqb_refl].
    apply (find_some _ _ Hfind).
  - simpl in Hwf.
    assert (conforms t v = true -> conforms (t_optional t) v = true) as Hstep.
    { intros Hc. simpl. destruct v; try exact Hc. reflexivity. }
    destruct r; try (apply Hstep; eapply IHt; eassumption).
    injection Hv as <-. reflexivity.
  - simpl in Hwf. destruct r; try discriminate.
    destruct (validate_items_ok _ l v (validate_nonempty t) Hv) as [vs [-> Hall]].
    simpl. clear Hv. induction Hall as [|r y l vs Hy _ IHall]; [reflexivity|].
    simpl. rewrite (IHt Hwf r y Hy). exact IHall.
  - destruct r; try discriminate.
    simpl in Hwf. apply andb_prop in Hwf. destruct Hwf as [Hwf Hall].
    apply andb_prop in Hwf. destruct Hwf as [Hnames _].
    apply distinct_NoDup in Hnames. rewrite forallb_forall in Hall.
    pose proof (model_ok_fields _ _ _ _ Hv) as Hok.
    rewrite (model_ok_value _ _ _ _ Hv). simpl.
    rewrite String.eqb_refl, (attrs_names d fields Hok), same_names_refl. simpl.
    apply forallb_forall. intros f Hf.
    rewrite (attrs_get d fields (fname f) Hok), (find_named_self fields f Hnames Hf).
    destruct (field_value_outcome d f (Hok f Hf)) as [x [Hx _]]. rewrite Hx.
    specialize (Hall f Hf). apply andb_prop in Hall. destruct Hall as [Hfit Hwf].
    apply (field_value_conforms d f x Hfit); [|exact Hx].
    rewrite Forall_forall in H. exact (H f Hf Hwf).
Qed.

(** X1.  Every instance built by a record class of the source inhabits
    the class: it has one attribute per declared field, in declaration
    order, and every attribute, at every depth of nested records and
    lists, is within the bounds, length limits and enumerations
    declared for it. *)
Theorem built_values_conform model d x :
  In model record_types ->
  model_validate model d = Ok x ->
  conforms model x = true.
Proof.
  intros Hin Hx. destruct (record_types_models model Hin) as [Hwf _].
  exact (validate_conforms model Hwf (RDict d) x Hx).
Qed.

(** *** Fields of a built record *)

(** A required field of a built record was bound in the raw mapping, to
    a raw value its annotation takes, and holds the value validated. *)
Lemma required_attr cls fields d x f :
  distinct (map (@fname ty) fields) = true ->
  In f fields ->
  fdefault f = required ->
  validate (t_model cls fields) (RDict d) = Ok x ->
  exists r v, dict_get (lookup_key f) d = Some r /\
              validate (fty f) r = Ok v /\
              getattr x (fname f) = Some v.
Proof.
  intros Hd Hf Hreq Hx.
  pose proof (model_ok_fields _ _ _ _ Hx f Hf) as Hok. apply violated_false in Hok.
  rewrite (getattr_validated _ _ _ _ (fname f) Hx).
  rewrite (find_named_self fields f (distinct_NoDup _ Hd) Hf).
  unfold field_value.
  destruct (dict_get (lookup_key f) d) as [r|] eqn:Hget.
  - rewrite (field_outcome_present d f r Hget) in *.
    destruct (validate (fty f) r) as [v|] eqn:Hv; [|discriminate].
    exists r, v. split; [reflexivity|]. split; [exact Hv | reflexivity].
  - rewrite (field_outcome_absent d f Hget), Hreq in Hok. discriminate.
Qed.

Lemma int_attr cls fields d x f c :
  distinct (map (@fname ty) fields) = true ->
  In f fields -> fdefault f = required -> fty f = t_int c ->
  validate (t_model cls fields) (RDict d) = Ok x ->
  exists z, getattr x (fname f) = Some (VInt z) /\ within_int c z = true.
Proof.
  intros Hd Hf Hreq Hty Hx.
  destruct (required_attr cls fields d x f Hd Hf Hreq Hx) as [r [v [_ [Hv Ha]]]].
  rewrite Hty in Hv. simpl in Hv.
  destruct (validate_int_ok c r v Hv) as [z [-> Hc]].
  exists z. split; [exact Ha | apply (check_int_within c z _ Hc)].
Qed.

Lemma float_attr cls fields d x f c :
  distinct (map (@fname ty) fields) = true ->
  In f fields -> fdefault f = required -> fty f = t_float c ->
  validate (t_model cls fields) (RDict d) = Ok x ->
  exists v, getattr x (fname f) = Some (VFloat v) /\ within_float c v = true.
Proof.
  intros Hd Hf Hreq Hty Hx.
  destruct (required_attr cls fields d x f Hd Hf Hreq Hx) as [r [v [_ [Hv Ha]]]].
  rewrite Hty in Hv. simpl in Hv.
  destruct (validate_float_ok c r v Hv) as [y [-> Hc]].
  exists y. split; [exact Ha | apply (check_float_within c y _ Hc)].
Qed.

(** The line error of a number out of range is in the report of the
    record, at the key of the field. *)
Lemma int_report cls fields d f c r z k :
  In f fields -> fty f = t_int c ->
  dict_get (lookup_key f) d = Some r ->
  int_of_raw r = Ok z ->
  check_int c z = fail k ->
  In (LineError [LField (lookup_key f)] k)
     (errors_of (validate (t_model cls fields) (RDict d))).
Proof.
  intros Hf Hty Hget Hconv Hc.
  apply (model_reports_field cls fields d f [LineError [] k] (LineError [] k) Hf);
    [|left; reflexivity].
  rewrite (field_outcome_present d f r Hget), Hty. simpl.
  unfold validate_int. rewrite Hconv, Hc. reflexivity.
Qed.

Lemma float_report cls fields d f c r v k :
  In f fields -> fty f = t_float c ->
  dict_get (lookup_key f) d = Some r ->
  float_of_raw r = Ok v ->
  check_float c v = fail k ->
  In (LineError [LField (lookup_key f)] k)
     (errors_of (validate (t_model cls fields) (RDict d))).
Proof.
  intros Hf Hty Hget Hconv Hc.
  apply (model_reports_field cls fields d f [LineError [] k] (LineError [] k) Hf);
    [|left; reflexivity].
  rewrite (field_outcome_present d f r Hget), Hty. simpl.
  unfold validate_float. rewrite Hconv, Hc. reflexivity.
Qed.

(** X2.  An [Item] needs a [quantity] of one or more.  Let the raw
    quantity read as the integer [z]; with the other fields in order the
    item is built exactly when 1 <= z, and a quantity below one is
    reported as a [greater_than_equal] failure at [quantity]. *)
Theorem item_quantity_floor d r z :
  dict_get "quantity" d = Some r ->
  int_of_raw r = Ok z ->
  (forall g, In g (fields_of Item) -> fname g <> "quantity" -> violated d g = false) ->
  (is_ok (model_validate Item d) = true <-> (1 <= z)%Z) /\
  ((z < 1)%Z ->
   In (LineError [LField "quantity"] greater_than_equal)
      (errors_of (model_validate Item d))).
Proof.
  intros Hget Hconv Hothers.
  set (quantity := plain "quantity" (int_ge 1)).
  assert (In quantity (fields_of Item)) as Hin by (simpl; tauto).
  assert (check_int (NumField (Some 1%Z) None) z =
          if (1 <=? z)%Z then Ok (VInt z) else fail greater_than_equal) as Hc.
  { unfold check_int. simpl. destruct (1 <=? z)%Z; reflexivity. }
  split.
  - unfold model_validate, Item.
    rewrite (model_ok_field "Item" (fields_of Item) d quantity eq_refl Hin Hothers).
    unfold violated. rewrite (field_outcome_present d quantity r Hget). simpl.
    unfold validate_int. rewrite Hconv, Hc.
    destruct (Z.leb_spec 1 z); simpl; split; intros Hz;
      solve [discriminate Hz | lia | reflexivity].
  - intros Hlt.
    apply (int_report "Item" (fields_of Item) d quantity _ r z _ Hin eq_refl Hget Hconv).
    rewrite Hc. destruct (Z.leb_spec 1 z); [lia | reflexivity].
Qed.

(** X3.  The scores of a [Ratings] built are integers from 1 to 5, both
    ends included, and its review is a string.  A score that reads as an
    integer above 5 is reported as a [less_than_equal] failure and one
    below 1 as a [greater_than_equal] failure, at the key of the
    score. *)
Theorem ratings_scores_in_range d :
  (forall x, model_validate Ratings d = Ok x ->
     exists a b s,
       getattr x "food" = Some (VInt a) /\
       getattr x "delivery" = Some (VInt b) /\
       getattr x "review" = Some (VStr s) /\
       (1 <= a <= 5)%Z /\ (1 <= b <= 5)%Z) /\
  (forall name r z,
     In name ["food"; "delivery"] ->
     dict_get name d = Some r ->
     int_of_raw r = Ok z ->
     ((5 < z)%Z ->
      In (LineError [LField name] less_than_equal)
         (errors_of (model_validate Ratings d))) /\
     ((z < 1)%Z ->
      In (LineError [LField name] greater_than_equal)
         (errors_of (model_validate Ratings d)))).
Proof.
  split.
  - intros x Hx. unfold model_validate in Hx.
    destruct (int_attr "Ratings" (fields_of Ratings) d x (plain "food" (int_between 1 5))
                (NumField (Some 1%Z) (Some 5%Z)) eq_refl) as [a [Ha Hwa]];
      try reflexivity; [simpl; tauto | exact Hx |].
    destruct (int_attr "Ratings" (fields_of Ratings) d x
                (plain "delivery" (int_between 1 5))
                (NumField (Some 1%Z) (Some 5%Z)) eq_refl) as [b [Hb Hwb]];
      try reflexivity; [simpl; tauto | exact Hx |].
    destruct (required_attr "Ratings" (fields_of Ratings) d x (plain "review" str)
                eq_refl) as [r [v [_ [Hv Hr]]]];
      try reflexivity; [simpl; tauto | exact Hx |].
    simpl in Hv. destruct (validate_str_ok _ _ _ Hv) as [s [_ [-> _]]].
    exists a, b, s. unfold within_int in *. simpl in *.
    apply andb_prop in Hwa, Hwb. destruct Hwa as [Ha1 Ha5], Hwb as [Hb1 Hb5].
    apply Z.leb_le in Ha1, Ha5, Hb1, Hb5.
    repeat split; assumption.
  - intros name r z Hname Hget Hconv.
    set (f := plain name (int_between 1 5)).
    assert (In f (fields_of Ratings)) as Hin.
    { unfold f. each_member Hname; simpl; tauto. }
    pose proof (int_report "Ratings" (fields_of Ratings) d f
                  (NumField (Some 1%Z) (Some 5%Z)) r z) as Hrep.
    unfold model_validate. split; intros Hz; apply Hrep;
      try assumption; try reflexivity; unfold check_int; simpl.
    + destruct (Z.leb_spec z 5); [lia | reflexivity].
    + destruct (Z.leb_spec z 5); [|lia].
      destruct (Z.leb_spec 1 z); [lia | reflexivity].
Qed.

(** X4.  Each of the six amounts of a [Pricing] built is a float at or
    above zero, in the order of binary64 and in exact value, and a raw
    amount that reads as a float below zero is reported as a
    [greater_than_equal] failure at its key. *)
Theorem pricing_amounts_nonnegative d name :
  In name ["itemTotal"; "deliveryFee"; "platformFee"; "gst"; "discount";
           "totalAmount"] ->
  (forall x, model_validate Pricing d = Ok x ->
     exists v, getattr x name = Some (VFloat v) /\
               SFleb Samples.f_0 v = true /\ int_leb_float 0 v = true) /\
  (forall r v, dict_get name d = Some r -> float_of_raw r = Ok v ->
     SFltb v Samples.f_0 = true ->
     In (LineError [LField name] greater_than_equal)
        (errors_of (model_validate Pricing d))).
Proof.
  intros Hname.
  set (f := plain name (float_ge 0)).
  assert (In f (fields_of Pricing)) as Hin.
  { unfold f. each_member Hname; simpl; tauto. }
  unfold model_validate. split.
  - intros x Hx.
    destruct (float_attr "Pricing" (fields_of Pricing) d x f
                (NumField (Some 0%Z) None) eq_refl Hin eq_refl eq_refl Hx)
      as [v [Ha Hw]].
    exists v. split; [exact Ha|].
    unfold within_float in Hw. simpl in Hw. rewrite andb_true_r in Hw.
    split; [exact Hw | rewrite <- SFleb_zero_exact; exact Hw].
  - intros r v Hget Hconv Hneg.
    apply (float_report "Pricing" (fields_of Pricing) d f
             (NumField (Some 0%Z) None) r v _ Hin eq_refl Hget Hconv).
    unfold check_float. cbn [le ge]. change (float_bound 0) with Samples.f_0.
    rewrite (SFltb_not_SFleb _ _ Hneg). reflexivity.
Qed.

(** X5.  The counts of an [AccountStats] built and the points of a
    [LoyaltyRewards] built are integers at or above zero, and a raw
    count that reads as a negative integer is reported as a
    [greater_than_equal] failure at its key. *)
Theorem counts_nonnegative model name d :
  In (model, name)
     [(AccountStats, "totalOrders"); (AccountStats, "savedAddresses");
      (LoyaltyRewards, "currentPoints"); (LoyaltyRewards, "pointsToNextReward")] ->
  (forall x, model_validate model d = Ok x ->
     exists z, getattr x name = Some (VInt z) /\ (0 <= z)%Z) /\
  (forall r z, dict_get name d = Some r -> int_of_raw r = Ok z -> (z < 0)%Z ->
     In (LineError [LField name] greater_than_equal)
        (errors_of (model_validate model d))).
Proof.
  intros Hin.
  set (f := plain name (int_ge 0)).
  assert (exists cls fields,
            model = t_model cls fields /\ In f fields /\
            distinct (map (@fname ty) fields) = true) as [cls [fields [-> [Hf Hd]]]].
  { unfold f. simpl in Hin.
    repeat (destruct Hin as [Hin|Hin];
            [injection Hin as <- <-; eexists; eexists;
             (split; [reflexivity | split; [simpl; tauto | reflexivity]])|]).
    contradiction. }
  unfold model_validate. split.
  - intros x Hx.
    destruct (int_attr cls fields d x f (NumField (Some 0%Z) None) Hd Hf
                eq_refl eq_refl Hx) as [z [Ha Hw]].
    exists z. split; [exact Ha|].
    unfold within_int in Hw. simpl in Hw. rewrite andb_true_r in Hw.
    apply Z.leb_le, Hw.
  - intros r z Hget Hconv Hneg.
    apply (int_report cls fields d f (NumField (Some 0%Z) None) r z _
             Hf eq_refl Hget Hconv).
    unfold check_int. simpl. destruct (Z.leb_spec 0 z); [lia | reflexivity].
Qed.

(** *** One field at a time *)

Lemma unique_key fields f g :
  NoDup (map (@lookup_key ty) fields) ->
  In f fields -> In g fields -> lookup_key g = lookup_key f -> g = f.
Proof.
  induction fields as [|h fields IH]; intros Hnd Hf Hg E; [contradiction|].
  inversion Hnd as [|? ? Hnotin Hnd']; subst.
  destruct Hf as [->|Hf], Hg as [->|Hg].
  - reflexivity.
  - exfalso. apply Hnotin. rewrite <- E. apply in_map. exact Hg.
  - exfalso. apply Hnotin. rewrite E. apply in_map. exact Hf.
  - apply IH; assumption.
Qed.

Lemma record_types_distinct model :
  In model record_types ->
  distinct (map (@fname ty) (fields_of model)) = true /\
  distinct (map (@lookup_key ty) (fields_of model)) = true /\
  map (@lookup_key ty) (fields_of model) = map (@fname ty) (fields_of model).
Proof.
  intros H. each_member H; repeat split; reflexivity.
Qed.

(** In a raw mapping from which a record is built, the key of one
    field bound anew to a raw value its annotation takes gives a record
    again, with the new value there and the other attributes as they
    were. *)
Lemma update_field cls fields d x f r v :
  distinct (map (@fname ty) fields) = true ->
  distinct (map (@lookup_key ty) fields) = true ->
  In f fields ->
  validate (t_model cls fields) (RDict d) = Ok x ->
  validate (fty f) r = Ok v ->
  exists y,
    validate (t_model cls fields) (RDict ((lookup_key f, r) :: d)) = Ok y /\
    getattr y (fname f) = Some v /\
    forall n, n <> fname f -> getattr y n = getattr x n.
Proof.
  intros Hnames Hkeys Hf Hx Hv.
  apply distinct_NoDup in Hnames. apply distinct_NoDup in Hkeys.
  set (d' := (lookup_key f, r) :: d).
  pose proof (model_ok_fields _ _ _ _ Hx) as Hok.
  assert (snd (field_outcome d' f) = Ok (fname f, v)) as Hnew.
  { rewrite (field_outcome_present d' f r (dict_get_cons_eq _ _ _)), Hv. reflexivity. }
  assert (forall g, In g fields -> g <> f -> field_outcome d' g = field_outcome d g)
    as Hsame.
  { intros g Hg Hne. apply field_outcome_ext. apply dict_get_cons_ne.
    intros E. apply Hne. apply (unique_key fields f g Hkeys Hf Hg E). }
  assert (forall g, In g fields -> violated d' g = false) as Hok'.
  { intros g Hg. destruct (string_dec (lookup_key g) (lookup_key f)) as [E|E].
    - rewrite (unique_key fields f g Hkeys Hf Hg E).
      unfold violated. rewrite Hnew. reflexivity.
    - unfold violated. rewrite (Hsame g Hg); [apply (Hok g Hg)|].
      intros ->. apply E. reflexivity. }
  eexists. split; [apply (model_ok_intro cls fields d' Hok')|].
  pose proof (model_ok_intro cls fields d' Hok') as Hy.
  split.
  - rewrite (getattr_validated _ _ _ _ (fname f) Hy).
    rewrite (find_named_self fields f Hnames Hf).
    unfold field_value. rewrite Hnew. reflexivity.
  - intros n Hn.
    rewrite (getattr_validated _ _ _ _ n Hy), (getattr_validated _ _ _ _ n Hx).
    destruct (find (named n) fields) as [g|] eqn:Hfind; [|reflexivity].
    destruct (find_some _ _ Hfind) as [Hg Hnamed].
    unfold named in Hnamed. apply String.eqb_eq in Hnamed.
    unfold field_value. rewrite (Hsame g Hg); [reflexivity|].
    intros ->. apply Hn. symmetry. exact Hnamed.
Qed.

(** X6.  No record class of the source checks one field against
    another.  In a raw mapping from which a record is built, binding
    the key of one field to any raw value its annotation takes gives a
    record again; it holds the new value in that field and is unchanged
    in every other attribute. *)
Theorem field_update_independent model d x f r v :
  In model record_types ->
  In f (fields_of model) ->
  model_validate model d = Ok x ->
  validate (fty f) r = Ok v ->
  exists y,
    model_validate model ((lookup_key f, r) :: d) = Ok y /\
    getattr y (fname f) = Some v /\
    forall n, n <> fname f -> getattr y n = getattr x n.
Proof.
  intros Hm Hf Hx Hv.
  destruct (record_types_distinct model Hm) as [Hnames [Hkeys _]].
  destruct (record_types_models model Hm) as [_ [cls [fields ->]]].
  exact (update_field cls fields d x f r v Hnames Hkeys Hf Hx Hv).
Qed.

(** X7.  A [Timeline] is built exactly when each of its five keys is
    bound to a raw value that reads as a datetime: the five instants
    are taken one by one, in no order among them.  Five datetimes, in
    whatever order in time, give a [Timeline] that holds them as
    given. *)
Theorem timeline_unordered d :
  (is_ok (model_validate Timeline d) = true <->
   forall k, In k ["orderPlaced"; "restaurantAccepted"; "foodReady";
                   "outForDelivery"; "delivered"] ->
             exists r, dict_get k d = Some r /\ is_ok (validate_datetime r) = true) /\
  (forall t1 t2 t3 t4 t5,
     model_validate Timeline
       [("orderPlaced", RDatetime t1); ("restaurantAccepted", RDatetime t2);
        ("foodReady", RDatetime t3); ("outForDelivery", RDatetime t4);
        ("delivered", RDatetime t5)]
     = Ok (VModel "Timeline"
             [("orderPlaced", VDatetime t1); ("restaurantAccepted", VDatetime t2);
              ("foodReady", VDatetime t3); ("outForDelivery", VDatetime t4);
              ("delivered", VDatetime t5)])).
Proof.
  split; [|reflexivity].
  unfold model_validate, Timeline. rewrite model_ok_iff. split.
  - intros H k Hk.
    assert (violated d (aliased k t_datetime k) = false) as Hv.
    { apply H. each_member Hk; simpl; tauto. }
    apply violated_false in Hv.
    destruct (dict_get k d) as [r|] eqn:Hget.
    + exists r. split; [reflexivity|].
      rewrite (field_outcome_present d (aliased k t_datetime k) r Hget) in Hv.
      simpl in Hv. destruct (validate_datetime r); [reflexivity | discriminate].
    + rewrite (field_outcome_absent d (aliased k t_datetime k) Hget) in Hv.
      discriminate.
  - intros H f Hf.
    assert (exists k, f = aliased k t_datetime k /\
              In k ["orderPlaced"; "restaurantAccepted"; "foodReady";
                    "outForDelivery"; "delivered"]) as [k [-> Hk]].
    { each_member Hf; eexists; (split; [reflexivity | simpl; tauto]). }
    destruct (H k Hk) as [r [Hget Hr]].
    apply violated_false.
    rewrite (field_outcome_present d (aliased k t_datetime k) r Hget). simpl.
    destruct (validate_datetime r); [reflexivity | discriminate].
Qed.

(** *** Empty and partial input *)

(** X8.  No record class of the source is built from the empty mapping:
    each has a required field, and the report is one [missing] line
    error for each required field, at its key, in declaration order,
    and nothing else. *)
Theorem empty_mapping_reports_required model :
  In model record_types ->
  model_validate model []
  = ValidationError
      (map (fun f => LineError [LField (lookup_key f)] missing)
           (filter is_required (fields_of model))) /\
  filter is_required (fields_of model) <> [].
Proof.
  intros H. each_member H; split; solve [reflexivity | discriminate].
Qed.

(** X9.  For the two optional fields of a [Restaurant], an absent key
    and a key bound to [None] are the same input: the results of the
    construction are equal, and a record built holds [None] there.  A
    value that is neither [None] nor a string, such as an integer, is
    reported as a [string_type] failure at the key. *)
Theorem optional_none_is_absent d k :
  In k ["restaurantId"; "cuisine"] ->
  dict_get k d = None ->
  model_validate Restaurant ((k, RNone) :: d) = model_validate Restaurant d /\
  (forall x, model_validate Restaurant d = Ok x -> getattr x k = Some VNone) /\
  (forall r, r <> RNone -> (forall s, r <> RStr s) ->
     In (LineError [LField k] string_type)
        (errors_of (model_validate Restaurant ((k, r) :: d)))).
Proof.
  intros Hk Hget. unfold model_validate. split; [|split].
  - unfold Restaurant. rewrite !validate_model_eq.
    rewrite (map_ext_in (field_outcome ((k, RNone) :: d)) (field_outcome d));
      [reflexivity|].
    intros g Hg. unfold field_outcome, validate_field, lookup_key.
    each_member Hk; each_member Hg; simpl; rewrite ?Hget; reflexivity.
  - intros x Hx. rewrite (getattr_validated _ _ _ _ k Hx).
    unfold field_value, field_outcome, validate_field, lookup_key.
    each_member Hk; simpl; rewrite Hget; reflexivity.
  - intros r Hnone Hstr.
    set (f := Field k (t_optional str)
                (match k with "restaurantId" => Some "restaurantId" | _ => None end)
                default_None).
    assert (In f (fields_of Restaurant) /\ lookup_key f = k) as [Hf Hkey].
    { unfold f. each_member Hk; split; simpl; tauto. }
    rewrite <- Hkey at 1.
    apply (model_reports_field "Restaurant" (fields_of Restaurant) _ f
             [LineError [] string_type] (LineError [] string_type) Hf);
      [|left; reflexivity].
    rewrite (field_outcome_present _ f r); [|rewrite Hkey; apply dict_get_cons_eq].
    destruct r; try reflexivity.
    + exfalso. apply Hnone. reflexivity.
    + exfalso. apply (Hstr s). reflexivity.
Qed.

(** *** Serialized mappings *)

Lemma dump_all_fields (h : field_info ty -> option raw) fields :
  (forall f, In f fields -> h f <> None) ->
  map fst (flat_map (fun f => match h f with
                              | Some y => [(lookup_key f, y)]
                              | None => []
                              end) fields)
  = map (@lookup_key ty) fields.
Proof.
  induction fields as [|f fields IH]; intros H; [reflexivity|].
  simpl. rewrite map_app, IH.
  - destruct (h f) eqn:E; [reflexivity|].
    exfalso. apply (H f (or_introl eq_refl)). exact E.
  - intros g Hg. apply H. right. exact Hg.
Qed.

(** X10.  A record built by a class of the source serializes to a
    mapping with exactly one key per declared field, in declaration
    order; every alias in the source is the name of its field, so the
    keys are the field names; and each key is bound to the
    serialization of the attribute of that name. *)
Theorem dump_keys_are_names model d x :
  In model record_types ->
  model_validate model d = Ok x ->
  exists d',
    model_dump model x = RDict d' /\
    map fst d' = map (@fname ty) (fields_of model) /\
    forall f v, In f (fields_of model) -> getattr x (fname f) = Some v ->
                dict_get (fname f) d' = Some (model_dump (fty f) v).
Proof.
  intros Hm Hx.
  destruct (record_types_distinct model Hm) as [Hnames [Hkeys Halias]].
  destruct (record_types_models model Hm) as [_ [cls [fields ->]]].
  simpl in Hnames, Hkeys, Halias. unfold model_validate in *.
  pose proof (model_ok_fields _ _ _ _ Hx) as Hok.
  rewrite (model_ok_value _ _ _ _ Hx).
  set (attrs := oks (map (field_outcome d) fields)).
  assert (forall f, In f fields -> dict_get (fname f) attrs = field_value d f) as Hattr.
  { intros f Hf. unfold attrs. rewrite (attrs_get d fields (fname f) Hok).
    rewrite (find_named_self fields f (distinct_NoDup _ Hnames) Hf). reflexivity. }
  set (h := fun f : field_info ty =>
              match dict_get (fname f) attrs with
              | Some y => Some (model_dump (fty f) y)
              | None => None
              end).
  exists (flat_map (fun f => match h f with
                             | Some y => [(lookup_key f, y)]
                             | None => []
                             end) fields).
  split; [|split].
  - simpl. f_equal. apply flat_map_ext. intros f. unfold h.
    destruct (dict_get (fname f) attrs); reflexivity.
  - rewrite dump_all_fields; [exact Halias|].
    intros f Hf. unfold h. rewrite (Hattr f Hf).
    destruct (field_value_outcome d f (Hok f Hf)) as [y [-> _]]. discriminate.
  - intros f v Hf Hv. simpl in Hf, Hv.
    assert (lookup_key f = fname f) as Hkey.
    { apply (proj1 (@map_ext_in_iff _ _ (@lookup_key ty) (@fname ty) fields)
               Halias f Hf). }
    rewrite <- Hkey at 1.
    apply dict_get_flat_map; try assumption.
    + apply distinct_NoDup, Hkeys.
    + intros g Hg. destruct (h g); [right; eexists; reflexivity | left; reflexivity].
    + unfold h. rewrite Hv. reflexivity.
Qed.

(** *** Lists of records *)

Lemma errs_items_nth v : forall l k i r es e,
  nth_error l i = Some r ->
  v r = ValidationError es ->
  In e es ->
  In (with_outer_location (LIndex (k + i)) e) (errs (item_outcomes v k l)).
Proof.
  induction l as [|r0 l IH]; intros k i r es e Hnth Hr He.
  - destruct i; discriminate.
  - rewrite item_outcomes_cons, errs_cons. apply in_or_app.
    destruct i as [|i]; simpl in Hnth.
    + injection Hnth as ->. left. simpl. rewrite Hr, Nat.add_0_r.
      apply in_map. exact He.
    + right. replace (k + S i) with (S k + i) by lia.
      apply (IH (S k) i r es e Hnth Hr He).
Qed.

(** X11.  In a list field of a record class of the source every element
    is validated, not just the ones before the first failure: each line
    error of the element at index [i] is in the report of the record,
    at the key of the field, then [i], then its location in the
    element. *)
Theorem list_element_errors_indexed model f t d l i r es e :
  In model record_types ->
  In f (fields_of model) ->
  fty f = t_list t ->
  dict_get (lookup_key f) d = Some (RList l) ->
  nth_error l i = Some r ->
  validate t r = ValidationError es ->
  In e es ->
  In (LineError (LField (lookup_key f) :: LIndex i :: loc e) (kind e))
     (errors_of (model_validate model d)).
Proof.
  intros Hm Hf Hty Hget Hnth Hr He.
  destruct (record_types_models model Hm) as [_ [cls [fields ->]]].
  simpl in Hf. unfold model_validate.
  pose proof (errs_items_nth (validate t) l 0 i r es e Hnth Hr He) as Hin.
  destruct (errs (item_outcomes (validate t) 0 l)) as [|e0 es0] eqn:E;
    [contradiction|].
  apply (model_reports_field cls fields d f (e0 :: es0)
           (with_outer_location (LIndex (0 + i)) e) Hf); [|exact Hin].
  rewrite (field_outcome_present d f _ Hget), Hty.
  change (validate (t_list t) (RList l)) with (validate_items (validate t) l).
  rewrite validate_items_eq, E. reflexivity.
Qed.

Lemma validate_items_all_ok v l :
  (forall r, In r l -> is_ok (v r) = true) -> is_ok (validate_items v l) = true.
Proof.
  intros H. rewrite validate_items_eq. rewrite ok_errs_nil; [reflexivity|].
  intros o Ho. unfold item_outcomes in Ho. apply in_map_iff in Ho.
  destruct Ho as [[i r] [<- Hin]]. simpl. apply H.
  apply (in_combine_r _ _ _ _ Hin).
Qed.

(** X12.  Whatever builds an [Order] builds a [RecentOrder]: the two
    customer keys are extra keys to it.  So a list of raw mappings, each
    of which builds an [Order], is taken as the [recentOrders] of a
    [Customer], and with the other fields in order the [Customer] is
    built. *)
Theorem orders_are_recent_orders l :
  (forall o, In o l -> is_ok (model_validate Order o) = true) ->
  (forall o, In o l -> is_ok (model_validate RecentOrder o) = true) /\
  is_ok (validate (t_list RecentOrder) (RList (map RDict l))) = true /\
  (forall c, dict_get "recentOrders" c = Some (RList (map RDict l)) ->
     (forall g, In g (fields_of Customer) -> fname g <> "recentOrders" ->
                violated c g = false) ->
     is_ok (model_validate Customer c) = true).
Proof.
  intros H.
  assert (forall o, In o l -> is_ok (model_validate RecentOrder o) = true) as Hrecent.
  { intros o Ho. specialize (H o Ho). unfold model_validate in *.
    destruct (validate Order (RDict o)) as [x|] eqn:Hx; [|discriminate].
    destruct (inherit_model "Order" (fields_of Order) o x
                "RecentOrder" (fields_of RecentOrder) o Hx eq_refl eq_refl)
      as [y [Hy _]].
    - intros f Hf. left. split; [|reflexivity]. each_member Hf; simpl; tauto.
    - change RecentOrder with (t_model "RecentOrder" (fields_of RecentOrder)).
      rewrite Hy. reflexivity. }
  assert (is_ok (validate (t_list RecentOrder) (RList (map RDict l))) = true) as Hlist.
  { change (validate (t_list RecentOrder) (RList (map RDict l)))
      with (validate_items (validate RecentOrder) (map RDict l)).
    apply validate_items_all_ok. intros r Hr. apply in_map_iff in Hr.
    destruct Hr as [o [<- Ho]]. apply (Hrecent o Ho). }
  split; [exact Hrecent|]. split; [exact Hlist|].
  intros c Hget Hothers.
  set (f := Field "recentOrders" (t_list RecentOrder) None default_factory_list).
  unfold model_validate, Customer.
  rewrite (model_ok_field "Customer" (fields_of Customer) c f eq_refl);
    [|simpl; tauto | exact Hothers].
  apply violated_false. rewrite (field_outcome_present c f _ Hget).
  change (fty f) with (t_list RecentOrder).
  destruct (validate (t_list RecentOrder) (RList (map RDict l)));
    [reflexivity | discriminate].
Qed.

(** X13.  A report never points outside the declarations: every line
    error of the report of a record starts at the key of a declared
    field that is itself in violation, and continues with a line error
    of that field. *)
Theorem errors_at_declared_fields cls fields d e :
  In e (errors_of (model_validate (t_model cls fields) d)) ->
  exists f e',
    In f fields /\ violated d f = true /\
    In e' (errors_of (snd (field_outcome d f))) /\
    loc e = LField (lookup_key f) :: loc e' /\ kind e = kind e'.
Proof.
  unfold model_validate. rewrite errors_of_model. unfold errs.
  intros H. apply in_flat_map in H. destruct H as [o [Ho He]].
  apply in_map_iff in Ho. destruct Ho as [f [<- Hf]].
  unfold violated. cbn [fst] in He.
  destruct (snd (field_outcome d f)) as [a|es] eqn:E; [contradiction|].
  apply in_map_iff in He. destruct He as [e' [<- He']].
  exists f, e'. rewrite E. split; [exact Hf|]. split; [reflexivity|].
  split; [exact He'|]. split; reflexivity.
Qed.

(** *** Dates and datetimes *)

(** X14.  The date fields [memberSince] of a [Profile] and [validUntil]
    of a [Coupon] take a date as it is and a datetime only at midnight,
    as its date; a datetime with a time of day is reported as a
    [date_from_datetime_inexact] failure, an InvalidTemporal, at the
    key.  The datetime fields, such as [orderDate] of an [Order], take a
    date as that day at midnight. *)
Theorem dates_and_datetimes model name d :
  In (model, name) [(Profile, "memberSince"); (Coupon, "validUntil")] ->
  (forall day tm tz,
     dict_get name d = Some (RDatetime (Datetime day tm tz)) ->
     (time_eqb tm midnight = false ->
      In (LineError [LField name] date_from_datetime_inexact)
         (errors_of (model_validate model d))) /\
     (time_eqb tm midnight = true ->
      forall x, model_validate model d = Ok x ->
                getattr x name = Some (VDate day))) /\
  (forall day x, dict_get name d = Some (RDate day) ->
     model_validate model d = Ok x -> getattr x name = Some (VDate day)) /\
  failure_of date_from_datetime_inexact = InvalidTemporal /\
  (forall day, validate t_datetime (RDate day)
               = Ok (VDatetime (Datetime day midnight None))).
Proof.
  intros Hin.
  set (f := aliased name t_date name).
  assert (exists cls fields,
            model = t_model cls fields /\ In f fields /\
            distinct (map (@fname ty) fields) = true) as [cls [fields [-> [Hf Hd]]]].
  { unfold f. simpl in Hin.
    repeat (destruct Hin as [Hin|Hin];
            [injection Hin as <- <-; eexists; eexists;
             (split; [reflexivity | split; [simpl; tauto | reflexivity]])|]).
    contradiction. }
  unfold model_validate.
  assert (forall r x, dict_get name d = Some r ->
            validate (t_model cls fields) (RDict d) = Ok x ->
            exists v, validate_date r = Ok v /\ getattr x name = Some v) as Hattr.
  { intros r x Hget Hx.
    destruct (required_attr cls fields d x f Hd Hf eq_refl Hx) as [r' [v [Hget' [Hv Ha]]]].
    change (lookup_key f) with name in Hget'. rewrite Hget in Hget'.
    injection Hget' as <-. exists v. split; [exact Hv | exact Ha]. }
  split; [|split; [|split]]; try reflexivity.
  - intros day tm tz Hget. split.
    + intros Htm.
      apply (model_reports_field cls fields d f [LineError [] date_from_datetime_inexact]
               (LineError [] date_from_datetime_inexact) Hf); [|left; reflexivity].
      rewrite (field_outcome_present d f _ Hget).
      change (validate (fty f)) with validate_date.
      rewrite validate_date_datetime. simpl. rewrite Htm. reflexivity.
    + intros Htm x Hx. destruct (Hattr _ x Hget Hx) as [v [Hv Ha]].
      rewrite validate_date_datetime in Hv. simpl in Hv. rewrite Htm in Hv.
      injection Hv as <-. exact Ha.
  - intros day x Hget Hx. destruct (Hattr _ x Hget Hx) as [v [Hv Ha]].
    simpl in Hv. injection Hv as <-. exact Ha.
Qed.

(** *** Strings, shapes and locations *)

(** X15.  Of the string fields of the source only the three of
    [OrderModel] and [pincode] carry a length bound.  Every other
    string field takes any string, the empty one included: in a raw
    mapping from which its record is built, any string under its key
    gives a record again, holding that string. *)
Theorem plain_strings_take_any_string model f c d x s :
  In model record_types ->
  In f (fields_of model) ->
  fty f = t_str c ->
  model <> OrderModel ->
  fname f <> "pincode" ->
  model_validate model d = Ok x ->
  c = StrField None None /\
  exists y, model_validate model ((lookup_key f, RStr s) :: d) = Ok y /\
            getattr y (fname f) = Some (VStr s).
Proof.
  intros Hm Hf Hty Hmodel Hpin Hx.
  assert (c = StrField None None) as ->.
  { each_member Hm; try (exfalso; apply Hmodel; reflexivity);
      each_member Hf; try discriminate Hty;
      solve [injection Hty as <-; reflexivity | exfalso; apply Hpin; reflexivity]. }
  split; [reflexivity|].
  destruct (record_types_distinct model Hm) as [Hnames [Hkeys _]].
  destruct (record_types_models model Hm) as [_ [cls [fields ->]]].
  destruct (update_field cls fields d x f (RStr s) (VStr s) Hnames Hkeys Hf Hx)
    as [y [Hy [Ha _]]].
  - rewrite Hty. reflexivity.
  - exists y. split; [exact Hy | exact Ha].
Qed.

(** X16.  Serialization loses nothing: two records built by the same
    class of the source that serialize to the same mapping are the same
    record. *)
Theorem dump_injective model d1 d2 x y :
  In model record_types ->
  model_validate model d1 = Ok x ->
  model_validate model d2 = Ok y ->
  model_dump model x = model_dump model y ->
  x = y.
Proof.
  intros Hm Hx Hy Hdump.
  destruct (record_types_models model Hm) as [Hwf _].
  unfold model_validate in *.
  pose proof (roundtrip model Hwf _ _ Hx) as Rx.
  pose proof (roundtrip model Hwf _ _ Hy) as Ry.
  rewrite Hdump, Ry in Rx. injection Rx as ->. reflexivity.
Qed.

(** X17.  A field annotated with a record class takes a mapping only and
    a list field takes a list only: any other raw object under the key
    of a record field is reported as one [model_type] failure, and under
    the key of a list field as one [list_type] failure, both type
    mismatches, at the key. *)
Theorem wrong_shape_reported model f d r :
  In model record_types ->
  In f (fields_of model) ->
  dict_get (lookup_key f) d = Some r ->
  (forall cls fields, fty f = t_model cls fields -> is_dict r = false ->
     snd (field_outcome d f) = fail model_type /\
     In (LineError [LField (lookup_key f)] model_type)
        (errors_of (model_validate model d))) /\
  (forall t, fty f = t_list t -> is_list_object r = false ->
     snd (field_outcome d f) = fail list_type /\
     In (LineError [LField (lookup_key f)] list_type)
        (errors_of (model_validate model d))) /\
  failure_of model_type = TypeMismatch /\ failure_of list_type = TypeMismatch.
Proof.
  intros Hm Hf Hget.
  destruct (record_types_models model Hm) as [_ [cls0 [fields0 ->]]].
  simpl in Hf. unfold model_validate.
  split; [|split; [|split; reflexivity]].
  - intros cls fields Hty Hr.
    assert (snd (field_outcome d f) = fail model_type) as Hout.
    { rewrite (field_outcome_present d f r Hget), Hty.
      destruct r; try discriminate Hr; reflexivity. }
    split; [exact Hout|].
    apply (model_reports_field cls0 fields0 d f _ (LineError [] model_type) Hf Hout).
    left. reflexivity.
  - intros t Hty Hr.
    assert (snd (field_outcome d f) = fail list_type) as Hout.
    { rewrite (field_outcome_present d f r Hget), Hty.
      destruct r; try discriminate Hr; reflexivity. }
    split; [exact Hout|].
    apply (model_reports_field cls0 fields0 d f _ (LineError [] list_type) Hf Hout).
    left. reflexivity.
Qed.

(** X18.  A failure inside a nested record is reported by every
    enclosing record with its own key in front: each line error of the
    validation of the raw value of a field is in the report of the
    record, at the key of the field followed by its location inside the
    value. *)
Theorem nested_errors_located model f d r e :
  In model record_types ->
  In f (fields_of model) ->
  dict_get (lookup_key f) d = Some r ->
  In e (errors_of (validate (fty f) r)) ->
  In (LineError (LField (lookup_key f) :: loc e) (kind e))
     (errors_of (model_validate model d)).
Proof.
  intros Hm Hf Hget He.
  destruct (record_types_models model Hm) as [_ [cls [fields ->]]].
  simpl in Hf. unfold model_validate.
  destruct (validate (fty f) r) as [v|es] eqn:E; [contradiction|].
  apply (model_reports_field cls fields d f es e Hf); [|exact He].
  rewrite (field_outcome_present d f r Hget), E. reflexivity.
Qed.

End Invariants.

(** ** The further facts at work on the sample data *)

Section Cases.
Local Open Scope string_scope.
Local Open Scope list_scope.
Import Samples.

(** X1: the sample customer, with its recent order inside. *)
Lemma built_values_conform_witness :
  exists c, @model_validate objects_only Customer customer = Ok c /\
            conforms Customer c = true.
Proof.
  destruct (@model_validate objects_only Customer customer) as [c|es] eqn:E;
    [|vm_compute in E; discriminate E].
  exists c. split; [reflexivity|].
  apply (@built_values_conform objects_only Customer customer c);
    [simpl; tauto | exact E].
Defined.

(** X2: one biryani is an item, none is not. *)
Lemma item_quantity_floor_witness :
  is_ok (@model_validate objects_only Item (item_of (RInt 1))) = true /\
  In (LineError [LField "quantity"] greater_than_equal)
     (errors_of (@model_validate objects_only Item (item_of (RInt 0)))).
Proof.
  assert (forall q g, In g (fields_of Item) -> fname g <> "quantity" ->
                      @violated objects_only (item_of q) g = false) as Hothers.
  { intros q g Hg Hne. each_member Hg; reflexivity. }
  pose proof (fun q z E => @item_quantity_floor objects_only (item_of q) q z
                             eq_refl E (Hothers q)) as H.
  split.
  - apply (proj1 (H (RInt 1) 1%Z eq_refl)). lia.
  - apply (proj2 (H (RInt 0) 0%Z eq_refl)). lia.
Defined.

(** X3: the sample ratings, and a food score of 6. *)
Lemma ratings_scores_in_range_witness :
  (exists x a, @model_validate objects_only Ratings ratings = Ok x /\
               getattr x "food" = Some (VInt a) /\ (1 <= a <= 5)%Z) /\
  In (LineError [LField "food"] less_than_equal)
     (errors_of (@model_validate objects_only Ratings (ratings_with (RInt 6)))).
Proof.
  split.
  - destruct (@model_validate objects_only Ratings ratings) as [x|es] eqn:E;
      [|vm_compute in E; discriminate E].
    destruct (proj1 (@ratings_scores_in_range objects_only ratings) x E)
      as [a [b [s [Ha [_ [_ [Hra _]]]]]]].
    exists x, a. split; [reflexivity|]. split; [exact Ha | exact Hra].
  - apply (proj2 (@ratings_scores_in_range objects_only (ratings_with (RInt 6)))
             "food" (RInt 6) 6%Z); [simpl; tauto | reflexivity | reflexivity | lia].
Defined.

(** X4: the sample pricing, and a discount of -1. *)
Lemma pricing_amounts_nonnegative_witness :
  (exists x v, @model_validate objects_only Pricing pricing = Ok x /\
               getattr x "totalAmount" = Some (VFloat v) /\
               int_leb_float 0 v = true) /\
  In (LineError [LField "discount"] greater_than_equal)
     (errors_of (@model_validate objects_only Pricing (pricing_with (RInt (-1))))).
Proof.
  split.
  - destruct (@model_validate objects_only Pricing pricing) as [x|es] eqn:E;
      [|vm_compute in E; discriminate E].
    destruct (@pricing_amounts_nonnegative objects_only pricing "totalAmount")
      as [H _]; [simpl; tauto|].
    destruct (H x E) as [v [Ha [_ Hv]]].
    exists x, v. repeat split; assumption.
  - destruct (@pricing_amounts_nonnegative objects_only
                (pricing_with (RInt (-1))) "discount") as [_ H]; [simpl; tauto|].
    apply (H (RInt (-1)) f_minus_1); reflexivity.
Defined.

(** X5: twelve orders are a count, minus one is not. *)
Lemma counts_nonnegative_witness :
  (exists x z, @model_validate objects_only AccountStats (stats_with (RInt 12)) = Ok x /\
               getattr x "totalOrders" = Some (VInt z) /\ (0 <= z)%Z) /\
  In (LineError [LField "totalOrders"] greater_than_equal)
     (errors_of (@model_validate objects_only AccountStats (stats_with (RInt (-1))))).
Proof.
  pose proof (fun d => @counts_nonnegative objects_only AccountStats "totalOrders" d
                         (or_introl eq_refl)) as H.
  split.
  - destruct (@model_validate objects_only AccountStats (stats_with (RInt 12)))
      as [x|es] eqn:E; [|vm_compute in E; discriminate E].
    destruct (proj1 (H (stats_with (RInt 12))) x E) as [z [Ha Hz]].
    exists x, z. repeat split; assumption.
  - apply (proj2 (H (stats_with (RInt (-1)))) (RInt (-1)) (-1)%Z);
      [reflexivity | reflexivity | lia].
Defined.

(** X6: the sample pricing with a total of zero, whatever the items cost. *)
Lemma field_update_independent_witness :
  exists x y,
    @model_validate objects_only Pricing pricing = Ok x /\
    @model_validate objects_only Pricing (("totalAmount", RInt 0) :: pricing) = Ok y /\
    getattr y "totalAmount" = Some (VFloat f_0) /\
    getattr y "itemTotal" = getattr x "itemTotal".
Proof.
  destruct (@model_validate objects_only Pricing pricing) as [x|es] eqn:E;
    [|vm_compute in E; discriminate E].
  destruct (@field_update_independent objects_only Pricing pricing x
              (plain "totalAmount" (float_ge 0)) (RInt 0) (VFloat f_0))
    as [y [Hy [Ht Hrest]]].
  - simpl. tauto.
  - simpl. tauto.
  - exact E.
  - reflexivity.
  - exists x, y. split; [reflexivity|]. split; [exact Hy|]. split; [exact Ht|].
    apply Hrest. discriminate.
Defined.

(** X8: a coupon from nothing. *)
Lemma empty_mapping_reports_required_witness :
  @model_validate objects_only Coupon []
  = ValidationError [LineError [LField "code"] missing;
                     LineError [LField "description"] missing;
                     LineError [LField "validUntil"] missing].
Proof.
  destruct (@empty_mapping_reports_required objects_only Coupon) as [H _].
  - simpl. tauto.
  - exact H.
Defined.

(** X9: the sample restaurant names no cuisine. *)
Lemma optional_none_is_absent_witness :
  @model_validate objects_only Restaurant (("cuisine", RNone) :: restaurant)
  = @model_validate objects_only Restaurant restaurant.
Proof.
  destruct (@optional_none_is_absent objects_only restaurant "cuisine") as [H _].
  - simpl. tauto.
  - reflexivity.
  - exact H.
Defined.

(** X10: the keys of the sample payment, serialized. *)
Lemma dump_keys_are_names_witness :
  exists x d',
    @model_validate objects_only Payment payment = Ok x /\
    model_dump Payment x = RDict d' /\
    map fst d' = ["method"; "transactionId"; "status"].
Proof.
  destruct (@model_validate objects_only Payment payment) as [x|es] eqn:E;
    [|vm_compute in E; discriminate E].
  destruct (@dump_keys_are_names objects_only Payment payment x) as [d' [Hd [Hk _]]].
  - simpl. tauto.
  - exact E.
  - exists x, d'. split; [reflexivity|]. split; [exact Hd | exact Hk].
Defined.

(** X11: both items of the order of losses are reported. *)
Lemma list_element_errors_indexed_witness :
  In (LineError [LField "items"; LIndex 0; LField "price"] greater_than_equal)
     (errors_of (@model_validate objects_only Order order_of_losses)) /\
  In (LineError [LField "items"; LIndex 1; LField "price"] greater_than_equal)
     (errors_of (@model_validate objects_only Order order_of_losses)).
Proof.
  assert (In Order record_types) as Hm by (simpl; tauto).
  assert (In (plain "items" (t_list Item)) (fields_of Order)) as Hin
    by (simpl; tauto).
  pose proof (fun i r => @list_element_errors_indexed objects_only Order
                (plain "items" (t_list Item)) Item order_of_losses
                [RDict (("price", RInt (-1)) :: biryani);
                 RDict (("price", RInt (-2)) :: raita)]
                i r [LineError [LField "price"] greater_than_equal]
                (LineError [LField "price"] greater_than_equal)
                Hm Hin eq_refl eq_refl) as H.
  split.
  - apply (H 0 (RDict (("price", RInt (-1)) :: biryani)) eq_refl eq_refl).
    left. reflexivity.
  - apply (H 1 (RDict (("price", RInt (-2)) :: raita)) eq_refl eq_refl).
    left. reflexivity.
Defined.

(** X12: the sample order, customer keys and all, among the recent
    orders of the sample customer. *)
Lemma orders_are_recent_orders_witness :
  is_ok (@model_validate objects_only Customer (customer_with [order; order])) = true.
Proof.
  destruct (@orders_are_recent_orders objects_only [order; order]) as [_ [_ H]].
  - intros o Ho. each_member Ho; reflexivity.
  - apply H; [reflexivity|].
    intros g Hg Hne. each_member Hg; reflexivity.
Defined.

(** X13: the price error of the item that costs less than nothing. *)
Lemma errors_at_declared_fields_witness :
  exists f, In f (fields_of Item) /\ lookup_key f = "price" /\
            @violated objects_only free_nothing f = true.
Proof.
  destruct (@errors_at_declared_fields objects_only "Item" (fields_of Item)
              free_nothing (LineError [LField "price"] greater_than_equal))
    as [f [e' [Hf [Hv [_ [Hloc _]]]]]].
  - right. left. reflexivity.
  - exists f. split; [exact Hf|]. split; [|exact Hv].
    simpl in Hloc. injection Hloc as Hkey _. symmetry. exact Hkey.
Defined.

(** X14: a coupon valid until noon, and one valid until midnight. *)
Lemma dates_and_datetimes_witness :
  In (LineError [LField "validUntil"] date_from_datetime_inexact)
     (errors_of (@model_validate objects_only Coupon
                   (coupon_until (RDatetime (Datetime (Date 2025 1 31) noon None))))) /\
  (exists x,
     @model_validate objects_only Coupon
       (coupon_until (RDatetime (Datetime (Date 2025 1 31) midnight None))) = Ok x /\
     getattr x "validUntil" = Some (VDate (Date 2025 1 31))).
Proof.
  pose proof (fun d => @dates_and_datetimes objects_only Coupon "validUntil" d
                         (or_intror (or_introl eq_refl))) as H.
  set (at_noon := coupon_until (RDatetime (Datetime (Date 2025 1 31) noon None))).
  set (at_midnight :=
         coupon_until (RDatetime (Datetime (Date 2025 1 31) midnight None))).
  split.
  - apply (proj1 (proj1 (H at_noon) (Date 2025 1 31) noon None eq_refl)).
    reflexivity.
  - destruct (@model_validate objects_only Coupon at_midnight)
      as [x|es] eqn:E; [|vm_compute in E; discriminate E].
    exists x. split; [reflexivity|].
    apply (proj2 (proj1 (H at_midnight) (Date 2025 1 31) midnight None eq_refl));
      [reflexivity | exact E].
Defined.

(** X15: a restaurant with no name at all. *)
Lemma plain_strings_take_any_string_witness :
  exists y, @model_validate objects_only Restaurant (("name", RStr "") :: restaurant)
            = Ok y /\
            getattr y "name" = Some (VStr "").
Proof.
  destruct (@model_validate objects_only Restaurant restaurant) as [x|es] eqn:E;
    [|vm_compute in E; discriminate E].
  destruct (@plain_strings_take_any_string objects_only Restaurant
              (plain "name" str) (StrField None None) restaurant x "")
    as [_ H].
  - simpl. tauto.
  - simpl. tauto.
  - reflexivity.
  - discriminate.
  - discriminate.
  - exact E.
  - exact H.
Defined.

(** X16: the biryani with no customizations and with an empty list of
    them. *)
Lemma dump_injective_witness :
  exists x, @model_validate objects_only Item biryani = Ok x /\
            @model_validate objects_only Item (("customizations", RList []) :: biryani)
            = Ok x.
Proof.
  destruct (@model_validate objects_only Item biryani) as [x|es] eqn:Ex;
    [|vm_compute in Ex; discriminate Ex].
  destruct (@model_validate objects_only Item (("customizations", RList []) :: biryani))
    as [y|es] eqn:Ey; [|vm_compute in Ey; discriminate Ey].
  exists x. split; [reflexivity|]. f_equal. symmetry.
  apply (@dump_injective objects_only Item biryani
           (("customizations", RList []) :: biryani) x y);
    [simpl; tauto | exact Ex | exact Ey |].
  vm_compute in Ex, Ey. injection Ex as <-. injection Ey as <-. reflexivity.
Defined.

(** X17: a restaurant given by its name, and items given as one
    mapping. *)
Lemma wrong_shape_reported_witness :
  In (LineError [LField "restaurant"] model_type)
     (errors_of (@model_validate objects_only Order
                   (("restaurant", RStr "Spice Route") :: order))) /\
  In (LineError [LField "items"] list_type)
     (errors_of (@model_validate objects_only Order
                   (("items", RDict biryani) :: order))).
Proof.
  assert (In Order record_types) as Hm by (simpl; tauto).
  split.
  - destruct (@wrong_shape_reported objects_only Order (plain "restaurant" Restaurant)
                (("restaurant", RStr "Spice Route") :: order) (RStr "Spice Route") Hm)
      as [H _]; [simpl; tauto | reflexivity |].
    apply (H "Restaurant" (fields_of Restaurant) eq_refl eq_refl).
  - destruct (@wrong_shape_reported objects_only Order (plain "items" (t_list Item))
                (("items", RDict biryani) :: order) (RDict biryani) Hm)
      as [_ [H _]]; [simpl; tauto | reflexivity |].
    apply (H Item eq_refl eq_refl).
Defined.

(** X18: a customer whose recent order comes from a restaurant rated
    5.0001. *)
Lemma nested_errors_located_witness :
  In (LineError [LField "recentOrders"; LIndex 0; LField "restaurant"; LField "rating"]
                less_than_equal)
     (errors_of (@model_validate objects_only Customer
                   (customer_with [recent_order_from (RFloat f_5_0001)]))).
Proof.
  apply (@nested_errors_located objects_only Customer
           (Field "recentOrders" (t_list RecentOrder) None default_factory_list)
           (customer_with [recent_order_from (RFloat f_5_0001)])
           (RList [RDict (recent_order_from (RFloat f_5_0001))])
           (LineError [LIndex 0; LField "restaurant"; LField "rating"] less_than_equal)).
  - simpl. tauto.
  - simpl. tauto.
  - reflexivity.
  - vm_compute. left. reflexivity.
Defined.

End Cases.
